(** * apischema validators: a shallow embedding of
      [apischema/validation/validators.py] and of the field lookup of
      [apischema/objects/getters.py]. *)

From stdpp Require Import base list gmap sets strings.


Set Warnings "-register-all".

Open Scope string_scope.

(* ------------------------------------------------------------------ *)
(** ** Error model *)

(** [ValidationError]: flat messages plus a mapping from field alias to a
    nested error (an association list, keys in insertion order). *)
Inductive ValidationError : Type :=
| mkVE (messages : list string) (children : list (string * ValidationError)).

Definition ve_messages (e : ValidationError) : list string :=
  match e with mkVE m _ => m end.
Definition ve_children (e : ValidationError) : list (string * ValidationError) :=
  match e with mkVE _ c => c end.

Fixpoint child_lookup (k : string) (l : list (string * ValidationError))
  : option ValidationError :=
  match l with
  | [] => None
  | (k', c) :: t => if String.eqb k k' then Some c else child_lookup k t
  end.

Definition child_mem (k : string) (l : list (string * ValidationError)) : bool :=
  match child_lookup k l with Some _ => true | None => false end.

(** Modelled from the spec: [merge_errors] of [apischema.validation.errors]
    (not part of the sources).  Merging concatenates flat messages and
    deep-merges the nested mappings: same-keyed children are merged
    recursively, the other keys are kept. *)
Fixpoint merge_ve (e1 e2 : ValidationError) {struct e1} : ValidationError :=
  match e1, e2 with
  | mkVE m1 ch1, mkVE m2 ch2 =>
      mkVE (m1 ++ m2)
        ((fix go (l : list (string * ValidationError)) :=
            match l with
            | [] => []
            | (k, c1) :: t =>
                (k, match child_lookup k ch2 with
                    | Some c2 => merge_ve c1 c2
                    | None => c1
                    end) :: go t
            end) ch1
         ++ List.filter (fun kc => negb (child_mem kc.1 ch1)) ch2)
  end.

(** Modelled from the spec: [merge_errors(error, err)] with a nullable
    accumulated error, [None] meaning that nothing has been collected. *)
Definition merge_errors (error : option ValidationError) (err : ValidationError)
  : ValidationError :=
  match error with
  | None => err
  | Some e => merge_ve e err
  end.

(* ------------------------------------------------------------------ *)
(** ** Exceptions surfacing from a validator call *)

(** The exception classes the engine distinguishes.  [ExnOther] is any
    other subclass of [Exception] ([str(err)] is its message);
    [ExnBase] is a [BaseException] that is not an [Exception]
    ([KeyboardInterrupt], [SystemExit], [GeneratorExit]). *)
Inductive exn : Type :=
| ExnVE (e : ValidationError)
| ExnDiscard (fields : gset string) (e : ValidationError)
| ExnNTD (validator : option string)     (* NonTrivialDependency, [.validator] *)
| ExnAssert                               (* AssertionError *)
| ExnOther (msg : string)
| ExnBase (msg : string).

(** Result of calling a Python function: normal return, or an exception. *)
Inductive outcome : Type :=
| Ret
| Raise (x : exn).

(* ------------------------------------------------------------------ *)
(** ** The validation engine: [validate] *)

Module Engine.
Section Engine.
Context {Obj Val : Type}.

  (** A registered [Validator] as the engine sees it: its declared
      [params], its [dependencies] and its wrapped [validate] callable.
      [v_name] is its identity (attached to a NonTrivialDependency). *)
Record Validator : Type := mkValidator {
    v_name : string;
    v_params : gset string;
    v_dependencies : gset string;
    v_validate : Obj -> gmap string Val -> outcome
  }.

  (** [{k: kwargs[k] for k in validator.params}] *)
Definition filter_kwargs (params : gset string) (kwargs : gmap string Val)
    : gmap string Val :=
    filter (fun kv : string * Val => kv.1 ∈ params) kwargs.

  (** The body of the [try] block of [validate] for one validator:
      [if kwargs and validator.params != kwargs.keys(): assert ...; call
      with the filtered kwargs; else: call with all kwargs]. *)
Definition call_validator (v : Validator) (obj : Obj) (kwargs : gmap string Val)
    : outcome :=
    if bool_decide (kwargs ≠ ∅) && bool_decide (v_params v ≠ dom kwargs) then
      if bool_decide (v_params v ⊆ dom kwargs)
      then v_validate v obj (filter_kwargs (v_params v) kwargs)
      else Raise ExnAssert
    else v_validate v obj kwargs.

  (** Result of [validate]: the instance returned, or an exception raised. *)
Inductive vresult : Type :=
  | Returned (o : Obj)
  | Raised (x : exn).

  (** [not discarded & v.dependencies] *)
Definition passes (discarded : gset string) (v : Validator) : bool :=
    bool_decide (discarded ∩ v_dependencies v = ∅).

  (** The [while True: for validator in __validators: ...] loop.

      The working iterator is the list iterator over the validators with
      [layers] generator expressions
      [(v for v in __validators if not discarded & v.dependencies)]
      stacked on it, one per Discard caught so far.  The condition of
      every layer reads the same local variable [discarded] of the frame
      of [validate] when the element is pulled, not when the layer is
      created: [discarded] is that cell.  An element therefore passes the
      whole chain iff it passes the condition for the current cell, and an
      element the innermost layer rejects is consumed from the list.
      [run] walks the list iterator; a Discard rebinds the cell, stacks a
      layer and restarts the [for] loop on the same remaining elements. *)
Fixpoint run (obj : Obj) (kwargs : gmap string Val) (discarded : gset string)
      (layers : nat) (error : option ValidationError) (l : list Validator)
      : vresult :=
    match l with
    | [] =>
        (* [else: break]; [if error is not None: raise error]; [return __obj] *)
        match error with
        | None => Returned obj
        | Some e => Raised (ExnVE e)
        end
    | v :: rest =>
        if negb (Nat.eqb layers 0) && negb (passes discarded v) then
          run obj kwargs discarded layers error rest
        else
          match call_validator v obj kwargs with
          | Ret => run obj kwargs discarded layers error rest
          | Raise (ExnVE err) =>
              run obj kwargs discarded layers (Some (merge_errors error err)) rest
          | Raise (ExnDiscard fields err) =>
              run obj kwargs fields (S layers) (Some (merge_errors error err)) rest
          | Raise (ExnNTD _) => Raised (ExnNTD (Some (v_name v)))
          | Raise ExnAssert => Raised ExnAssert
          | Raise (ExnOther m) =>
              run obj kwargs discarded layers
                (Some (merge_errors error (mkVE [m] []))) rest
          | Raise (ExnBase m) => Raised (ExnBase m)
          end
    end.

  (** [validate(__obj, __validators, **kwargs)] *)
Definition validate (obj : Obj) (validators : list Validator)
      (kwargs : gmap string Val) : vresult :=
    run obj kwargs ∅ 0 None validators.

End Engine.
End Engine.

Module EngineErrors.
  Import Engine.

(** The error [validate] merges for a validator that was called: the
    ValidationError it raised, the one a Discard carries, or
    [ValidationError([str(err)])] for another [Exception]. *)
Definition collected {Obj Val} (obj : Obj) (kw : gmap string Val)
    (v : @Validator Obj Val) (e : ValidationError) : Prop :=
  call_validator v obj kw = Raise (ExnVE e) \/
  (exists fs, call_validator v obj kw = Raise (ExnDiscard fs e)) \/
  (exists m, call_validator v obj kw = Raise (ExnOther m) /\ e = mkVE [m] []).

(** [error = merge_errors(error, err)] for each error in turn. *)
Definition merge_all (error : option ValidationError) (es : list ValidationError)
    : option ValidationError :=
  fold_left (fun acc x => Some (merge_errors acc x)) es error.

(** The outcome of a call that [validate] does not let out: a return, a
    ValidationError, a Discard or another [Exception]. *)
Definition non_fatal (r : outcome) : Prop :=
  match r with
  | Ret | Raise (ExnVE _) | Raise (ExnDiscard _ _) | Raise (ExnOther _) => True
  | _ => False
  end.
End EngineErrors.

(* ------------------------------------------------------------------ *)
(** ** Validator construction and wrapping ([Validator.__init__]) *)

Module Construct.

(** [inspect.Parameter.kind] *)
Inductive ParamKind : Type :=
| POSITIONAL_ONLY | POSITIONAL_OR_KEYWORD | VAR_POSITIONAL | KEYWORD_ONLY
| VAR_KEYWORD.

Definition ParamKind_eqb (k1 k2 : ParamKind) : bool :=
  match k1, k2 with
  | POSITIONAL_ONLY, POSITIONAL_ONLY | POSITIONAL_OR_KEYWORD, POSITIONAL_OR_KEYWORD
  | VAR_POSITIONAL, VAR_POSITIONAL | KEYWORD_ONLY, KEYWORD_ONLY
  | VAR_KEYWORD, VAR_KEYWORD => true
  | _, _ => false
  end.

Record SigParameter : Type := mkParameter { p_name : string; p_kind : ParamKind }.

(** What [inspect.signature] can do with a callable: give its parameters,
    raise [ValueError] (no signature can be found, e.g. for builtins such
    as [print]), or raise [TypeError] (an object of an unsupported kind,
    e.g. one whose [__signature__] attribute is not a [Signature]). *)
Inductive Introspection : Type :=
| Introspectable
| NoSignature
| Unsupported.

Inductive SigResult : Type :=
| SigOk (parameters : list SigParameter)
| SigValueError
| SigTypeError.

(** [FieldOrName]: a field name, or a field object carrying its name. *)
Inductive FieldOrName : Type :=
| FieldName (name : string)
| FieldObj (name : string).

(** Modelled from the spec: [get_field_name] of [apischema.objects.fields]
    (not part of the sources) gives the declared name of the field. *)
Definition get_field_name (f : FieldOrName) : string :=
  match f with FieldName n => n | FieldObj n => n end.

(** [ObjectField]: internal name and public alias. *)
Record ObjectField : Type := mkObjectField { of_name : string; of_alias : string }.

(** [object_fields(tp)] of getters.py:
    [OrderedDict((f.name, f) for f in GetFields(...).visit(tp))], the visit
    failing with [Unsupported] ([None]) for a type without fields. *)
Definition object_fields (visited : option (list ObjectField))
  : option (gmap string ObjectField) :=
  match visited with
  | None => None
  | Some fs => Some (foldl (fun m f => <[of_name f := f]> m) ∅ fs)
  end.

Section Construct.
Context {Obj Val TypeId : Type}.

  (** The body of a check function: a plain function, or a generator
      giving the errors it yields and how it ends. *)
Inductive Body : Type :=
  | PlainBody (run : Obj -> gmap string Val -> outcome)
  | GenBody (run : Obj -> gmap string Val -> list string * outcome).

Record CheckFn : Type := mkCheckFn {
    f_name : string;
    f_parameters : list SigParameter;   (* as declared *)
    f_introspect : Introspection;
    f_body : Body
  }.

  (** [inspect.signature(func).parameters] *)
Definition signature (f : CheckFn) : SigResult :=
    match f_introspect f with
    | Introspectable => SigOk (f_parameters f)
    | NoSignature => SigValueError
    | Unsupported => SigTypeError
    end.

Definition isgeneratorfunction (f : CheckFn) : bool :=
    match f_body f with GenBody _ => true | PlainBody _ => false end.

  (** Modelled from the spec: [yield_to_raise] of
      [apischema.validation.errors] (not part of the sources): the yielded
      errors are collected into one raised ValidationError. *)
Definition yield_to_raise (g : Obj -> gmap string Val -> list string * outcome)
      (obj : Obj) (kw : gmap string Val) : outcome :=
    match g obj kw with
    | (_, Raise x) => Raise x
    | ([], Ret) => Ret
    | (errs, Ret) => Raise (ExnVE (mkVE errs []))
    end.

  (** [validate = func], or [yield_to_raise(validate)] for a generator. *)
Definition call_func (f : CheckFn) : Obj -> gmap string Val -> outcome :=
    match f_body f with
    | PlainBody r => r
    | GenBody g => yield_to_raise g
    end.

  (** A [Validator] object; [alias_cache] and [discarded_cache] are the
      [nonlocal alias] and [nonlocal discarded] of the wrapping closures. *)
Record ValidatorObj : Type := mkValidatorObj {
    func : CheckFn;
    field : option FieldOrName;
    discard : option (list FieldOrName);
    dependencies : gset string;
    params : gset string;
    owner : option TypeId;            (* [self.owner], unset before [_register] *)
    registered : bool;
    alias_cache : option string;
    discarded_cache : option (gset string)
  }.

Inductive ctor_result : Type :=
  | Built (v : ValidatorObj)
  | CtorTypeError (msg : string).

  (** [Validator(func, field, discard)] *)
Definition construct (f : CheckFn) (fld : option FieldOrName)
      (disc : option (list FieldOrName)) : ctor_result :=
    let disc' := match fld, disc with
                 | Some x, None => Some [x]
                 | _, _ => disc
                 end in
    let mk ps := Built {| func := f; field := fld; discard := disc';
                          dependencies := ∅; params := ps; owner := None;
                          registered := false; alias_cache := None;
                          discarded_cache := None |} in
    match signature f with
    | SigTypeError => CtorTypeError "signature: unsupported callable"
    | SigValueError => mk ∅
    | SigOk parameters =>
        if bool_decide (parameters = []) then
          CtorTypeError "Validator must have at least one parameter"
        else if existsb (fun p => ParamKind_eqb (p_kind p) VAR_KEYWORD) parameters then
          CtorTypeError "Validator cannot have variadic keyword parameter"
        else if existsb (fun p => ParamKind_eqb (p_kind p) VAR_POSITIONAL) parameters then
          CtorTypeError "Validator cannot have variadic positional parameter"
        else mk (list_to_set (map p_name (tail parameters)))
    end.

  (** [object_fields(self.owner)[get_field_name(self.field)].alias];
      [fields_of] is the visit of a type's fields. *)
Definition resolve_alias (fields_of : TypeId -> option (list ObjectField))
      (own : option TypeId) (fld : FieldOrName) : string + exn :=
    match own with
    | None => inr (ExnOther "'Validator' object has no attribute 'owner'")
    | Some tp =>
        match object_fields (fields_of tp) with
        | None => inr (ExnOther "doesn't have fields")
        | Some m =>
            match m !! get_field_name fld with
            | Some f => inl (of_alias f)
            | None => inr (ExnOther (get_field_name fld))   (* KeyError *)
            end
        end
    end.

  (** [if self.discard:] *)
Definition discard_active (d : option (list FieldOrName)) : bool :=
    match d with Some (_ :: _) => true | _ => false end.

  (** The field layer (the [validate] defined under
      [if self.field is not None]) around the outcome of the inner call. *)
Definition field_layer (fields_of : TypeId -> option (list ObjectField))
      (vo : ValidatorObj) (fld : FieldOrName) (inner : outcome)
      : outcome * option string :=
    match inner with
    | Raise (ExnVE err) =>
        match alias_cache vo with
        | Some alias => (Raise (ExnVE (mkVE [] [(alias, err)])), Some alias)
        | None =>
            match resolve_alias fields_of (owner vo) fld with
            | inl alias => (Raise (ExnVE (mkVE [] [(alias, err)])), Some alias)
            | inr x => (Raise x, None)
            end
        end
    | r => (r, alias_cache vo)
    end.

  (** The discard layer (the [validate] defined under [if self.discard:]). *)
Definition discard_layer (vo : ValidatorObj) (d : list FieldOrName) (inner : outcome)
      : outcome * option (gset string) :=
    match inner with
    | Raise (ExnVE err) =>
        let discarded := match discarded_cache vo with
                         | Some s => s
                         | None => list_to_set (map get_field_name d)
                         end in
        (Raise (ExnDiscard discarded err), Some discarded)
    | r => (r, discarded_cache vo)
    end.

  (** [self.validate(__obj, **kwargs)]: the layers applied outward, the
      closures' caches updated in the returned object. *)
Definition wrapped_call (fields_of : TypeId -> option (list ObjectField))
      (vo : ValidatorObj) (obj : Obj) (kw : gmap string Val)
      : outcome * ValidatorObj :=
    let r0 := call_func (func vo) obj kw in
    let '(r1, alias') :=
      match field vo with
      | Some fld => field_layer fields_of vo fld r0
      | None => (r0, alias_cache vo)
      end in
    let '(r2, discarded') :=
      match discard vo with
      | Some d => if discard_active (discard vo) then discard_layer vo d r1
                  else (r1, discarded_cache vo)
      | None => (r1, discarded_cache vo)
      end in
    (r2, {| func := func vo; field := field vo; discard := discard vo;
            dependencies := dependencies vo; params := params vo;
            owner := owner vo; registered := registered vo;
            alias_cache := alias'; discarded_cache := discarded' |}).

  (** The engine's view of a constructed validator (caches aside). *)
Definition engine_view (fields_of : TypeId -> option (list ObjectField))
      (vo : ValidatorObj) : @Engine.Validator Obj Val :=
    {| Engine.v_name := f_name (func vo); Engine.v_params := params vo;
       Engine.v_dependencies := dependencies vo;
       Engine.v_validate := fun o kw => fst (wrapped_call fields_of vo o kw) |}.
End Construct.
End Construct.

(* ------------------------------------------------------------------ *)
(** ** Registration ([Validator._register]) and lookup ([get_validators]) *)

Module Registry.
  Import Construct.

Section Registry.
Context {Obj Val TypeId : Type} `{EqDecision TypeId}.

  (** The objects of the process: validators live in a store addressed
      by identity; [_validators] lists identities per owner type
      ([defaultdict(list)]: a type never registered has []). *)
Record World : Type := mkWorld {
    store : gmap nat (@ValidatorObj Obj Val TypeId);
    _validators : TypeId -> list nat
  }.

  (** External: [find_all_dependencies(owner, func)]. *)
Context (find_all_dependencies : TypeId -> @CheckFn Obj Val -> gset string).

Definition registry_append (reg : TypeId -> list nat) (tp : TypeId) (id : nat)
    : TypeId -> list nat :=
    fun t => if decide (t = tp) then (reg t ++ [id])%list else reg t.

  (** [validator._register(owner)] on the validator of identity [id]:
      the error raised, if any, and the world afterwards. *)
Definition _register (id : nat) (own : TypeId) (w : World)
    : option string * World :=
    match store w !! id with
    | None => (Some "NameError", w)
    | Some vo =>
        (* self.owner = owner *)
        let vo1 := {| func := func vo; field := field vo; discard := discard vo;
                      dependencies := dependencies vo; params := params vo;
                      owner := Some own; registered := registered vo;
                      alias_cache := alias_cache vo;
                      discarded_cache := discarded_cache vo |} in
        let w1 := {| store := <[id := vo1]> (store w); _validators := _validators w |} in
        if registered vo then (Some "Validator already registered", w1)
        else
          let vo2 := {| func := func vo; field := field vo; discard := discard vo;
                        dependencies := find_all_dependencies own (func vo) ∪ params vo;
                        params := params vo; owner := Some own; registered := true;
                        alias_cache := alias_cache vo;
                        discarded_cache := discarded_cache vo |} in
          (None, {| store := <[id := vo2]> (store w);
                    _validators := registry_append (_validators w) own id |})
    end.
End Registry.

Section Lookup.
Context {TypeId A : Type}.
  (** [_validators[tp]], [tp.__mro__] when [hasattr(tp, "__mro__")], and
      [get_model_origin(tp)] when [has_model_origin(tp)]. *)
Context (validators_of : TypeId -> list A)
          (mro : TypeId -> option (list TypeId))
          (model_origin : TypeId -> option TypeId).

  (** [get_validators(tp)]; [fuel] bounds the depth of the recursive call
      on the model origin ([None]: the recursion does not end, as with a
      cycle of model origins, where Python raises RecursionError). *)
Fixpoint get_validators (fuel : nat) (tp : TypeId) : option (list A) :=
    match fuel with
    | 0 => None
    | S n =>
        let validators :=
          match mro tp with
          | Some classes => concat (map validators_of classes)
          | None => validators_of tp
          end in
        match model_origin tp with
        | None => Some validators
        | Some origin =>
            match get_validators n origin with
            | Some more => Some (validators ++ more)%list
            | None => None
            end
        end
    end.
End Lookup.
End Registry.

(* ------------------------------------------------------------------ *)
(** ** Python errors raised outside the validation loop *)

Inductive py_error : Type :=
| TypeError (msg : string)
| ValueError (msg : string)
| RuntimeError (msg : string)
| AttributeError (name : string).

(* ------------------------------------------------------------------ *)
(** ** Field getters of [apischema/objects/getters.py] *)

Module Getters.
  Import Construct.

Section Getters.
Context {TypeId : Type}.

(** What [object_fields2] and the getters receive: a class, a generic
    alias, or an instance (of its [__class__]). *)
Inductive Target : Type :=
| TClass (t : TypeId)
| TGenericAlias (t : TypeId)
| TInstance (cls : TypeId).

(** [obj if isinstance(obj, (type, _GenericAlias)) else obj.__class__] *)
Definition target_type (obj : Target) : TypeId :=
  match obj with TClass t => t | TGenericAlias t => t | TInstance c => c end.

(** [object_fields2(obj)]: [object_fields] of that type, whose [TypeError]
    is raised when the visit of the type is [Unsupported]. *)
Definition object_fields2 (fields_of : TypeId -> option (list ObjectField))
    (obj : Target) : gmap string ObjectField + py_error :=
  match object_fields (fields_of (target_type obj)) with
  | Some m => inl m
  | None => inr (TypeError "doesn't have fields")
  end.

(** [getattr(get_field(obj), name)]: [FieldGetter.__getattribute__]. *)
Definition get_field (fields_of : TypeId -> option (list ObjectField))
    (obj : Target) (name : string) : ObjectField + py_error :=
  match object_fields2 fields_of obj with
  | inr e => inr e
  | inl fields =>
      match fields !! name with
      | Some f => inl f
      | None => inr (AttributeError name)
      end
  end.

(** [getattr(get_alias(obj), name)]: [AliasGetter.__getattribute__]. *)
Definition get_alias (fields_of : TypeId -> option (list ObjectField))
    (obj : Target) (name : string) : string + py_error :=
  match object_fields2 fields_of obj with
  | inr e => inr e
  | inl fields =>
      match fields !! name with
      | Some f => inl (of_alias f)
      | None => inr (AttributeError name)
      end
  end.
End Getters.
End Getters.

(* ------------------------------------------------------------------ *)
(** ** The [validator] decorator and [Validator.__set_name__] *)

Module Decorator.
  Import Construct Registry.

Section Decorator.
Context {Obj Val TypeId : Type} `{EqDecision TypeId}.
Context (find_all_dependencies : TypeId -> @CheckFn Obj Val -> gset string).
(** External: [get_origin_or_type] of [apischema.utils]. *)
Context (get_origin_or_type : TypeId -> TypeId).

(** A function passed to [validator]: the check function, what
    [is_method] and [method_class] of [apischema.utils] say of it, and
    the annotation of its first parameter in [get_type_hints(arg)]. *)
Record FuncInfo : Type := mkFuncInfo {
  fi_check : @CheckFn Obj Val;
  fi_is_method : bool;
  fi_method_class : option TypeId;
  fi_first_annotation : option TypeId
}.

(** [validator(...)] returns the function itself, the unregistered
    Validator (stored at its identity), or raises. *)
Inductive dec_result : Type :=
| ReturnsFunc (f : @CheckFn Obj Val)
| ReturnsValidator (id : nat)
| DecError (e : py_error).

(** The [try] block inferring the owner from the first parameter:
    [next(iter(signature(arg).parameters))] then
    [get_origin_or_type(get_type_hints(arg)[first_param])]. *)
Definition infer_owner (fi : FuncInfo) : option TypeId :=
  match signature (fi_check fi) with
  | SigOk (_ :: _) =>
      match fi_first_annotation fi with
      | Some t => Some (get_origin_or_type t)
      | None => None       (* KeyError *)
      end
  | _ => None              (* StopIteration, ValueError, TypeError *)
  end.

(** [validator_._register(owner); return arg] *)
Definition register_and_return (fi : FuncInfo) (id : nat) (own : TypeId)
    (w : @World Obj Val TypeId) : dec_result * World :=
  match _register find_all_dependencies id own w with
  | (None, w') => (ReturnsFunc (fi_check fi), w')
  | (Some msg, w') => (DecError (RuntimeError msg), w')
  end.

(** [validator(arg, field=field, discard=discard, owner=owner)] with a
    callable [arg]; [id] is the identity of the new Validator object. *)
Definition validator_callable (fi : FuncInfo) (fld : option FieldOrName)
    (disc : option (list FieldOrName)) (own : option TypeId) (id : nat)
    (w : @World Obj Val TypeId) : dec_result * World :=
  match construct (fi_check fi) fld disc with
  | CtorTypeError msg => (DecError (TypeError msg), w)
  | Built vo =>
      let w0 := {| store := <[id := vo]> (store w); _validators := _validators w |} in
      (* [if is_method(arg): cls = method_class(arg); ...] *)
      let step :=
        if fi_is_method fi then
          match fi_method_class fi with
          | None =>
              inr (match own with
                   | Some _ => DecError (TypeError "Validator owner cannot be set for class validator")
                   | None => ReturnsValidator id
                   end)
          | Some cls => inl (match own with None => Some cls | Some o => Some o end)
          end
        else inl own in
      match step with
      | inr r => (r, w0)
      | inl (Some o) => register_and_return fi id o w0
      | inl None =>
          match infer_owner fi with
          | Some o => register_and_return fi id o w0
          | None => (DecError (ValueError "Validator first parameter must be typed"), w0)
          end
      end
  end.

(** The [discard] argument as given: a string, a field object (not a
    collection), or a collection of fields or names. *)
Inductive DiscardArg : Type :=
| DiscardStr (s : string)
| DiscardFieldObj (name : string)
| DiscardCollection (l : list FieldOrName).

(** [if not isinstance(discard, Collection) or isinstance(discard, str):
    discard = [discard]] *)
Definition normalize_discard (d : option DiscardArg) : option (list FieldOrName) :=
  match d with
  | None => None
  | Some (DiscardStr s) => Some [FieldName s]
  | Some (DiscardFieldObj n) => Some [FieldObj n]
  | Some (DiscardCollection l) => Some l
  end.

(** Truthiness of a field argument: [None] and [""] are false. *)
Definition field_truthy (f : option FieldOrName) : bool :=
  match f with
  | None => false
  | Some (FieldName s) => negb (String.eqb s "")
  | Some (FieldObj _) => true
  end.

(** [field = field or arg] *)
Definition field_or (fld arg : option FieldOrName) : option FieldOrName :=
  if field_truthy fld then fld else arg.

(** [validator(arg, field=..., discard=..., owner=...)] with a
    non-callable [arg]: the returned [lambda func: validator(func, ...)]
    applied to [fi]. *)
Definition validator_configured (arg fld : option FieldOrName)
    (disc : option DiscardArg) (own : option TypeId) (fi : FuncInfo) (id : nat)
    (w : @World Obj Val TypeId) : dec_result * World :=
  validator_callable fi (field_or fld arg) (normalize_discard disc) own id w.

(** A class attribute: a Validator object, or a plain function. *)
Inductive Attr : Type :=
| AttrValidator (id : nat)
| AttrFunc (f : @CheckFn Obj Val).

(** [Validator.__set_name__(owner, name)]: [self._register(owner)] then
    [setattr(owner, name, self.func)]; [attrs] is the owner's namespace. *)
Definition __set_name__ (id : nat) (own : TypeId) (name : string)
    (w : @World Obj Val TypeId) (attrs : gmap string Attr)
    : option py_error * World * gmap string Attr :=
  match _register find_all_dependencies id own w with
  | (Some msg, w') => (Some (RuntimeError msg), w', attrs)
  | (None, w') =>
      match store w' !! id with
      | Some vo => (None, w', <[name := AttrFunc (func vo)]> attrs)
      | None => (None, w', attrs)
      end
  end.
End Decorator.
End Decorator.

(* ------------------------------------------------------------------ *)
(** ** Concrete validators for the engine *)

Module EngineExamples.
  Import Engine.

Abbreviation V := (@Validator unit nat).

  (** A validator declared with [discard={"a"}] whose check fails. *)
Definition discards_a : V :=
    {| v_name := "discards_a"; v_params := ∅; v_dependencies := ∅;
       v_validate := fun _ _ => Raise (ExnDiscard {["a"]} (mkVE ["A failed"] [])) |}.

  (** A validator declared with [discard={"b"}] whose check fails. *)
Definition discards_b : V :=
    {| v_name := "discards_b"; v_params := ∅; v_dependencies := ∅;
       v_validate := fun _ _ => Raise (ExnDiscard {["b"]} (mkVE ["B failed"] [])) |}.

  (** A failing validator reading field "a". *)
Definition reads_a : V :=
    {| v_name := "reads_a"; v_params := ∅; v_dependencies := {["a"]};
       v_validate := fun _ _ => Raise (ExnVE (mkVE ["C ran"] [])) |}.

  (** A failing validator reading field "y" only. *)
Definition reads_y : V :=
    {| v_name := "reads_y"; v_params := ∅; v_dependencies := {["y"]};
       v_validate := fun _ _ => Raise (ExnVE (mkVE ["Y bad"] [])) |}.

  (** A validator whose check raises [ValidationError()]. *)
Definition raises_empty : V :=
    {| v_name := "raises_empty"; v_params := ∅; v_dependencies := ∅;
       v_validate := fun _ _ => Raise (ExnVE (mkVE [] [])) |}.

  (** A validator whose check is interrupted ([KeyboardInterrupt]). *)
Definition interrupted : V :=
    {| v_name := "interrupted"; v_params := ∅; v_dependencies := ∅;
       v_validate := fun _ _ => Raise (ExnBase "KeyboardInterrupt") |}.

  (** A validator with [params = {"limit"}] that returns normally. *)
Definition takes_limit : V :=
    {| v_name := "takes_limit"; v_params := {["limit"]}; v_dependencies := {["limit"]};
       v_validate := fun _ kw =>
         if bool_decide (dom kw = {["limit"]}) then Ret
         else Raise (ExnOther "unexpected keyword argument") |}.

  (** A validator whose check raises [ValueError("boom")]. *)
Definition raises_value_error : V :=
    {| v_name := "raises_value_error"; v_params := ∅; v_dependencies := ∅;
       v_validate := fun _ _ => Raise (ExnOther "boom") |}.

Definition kwargs_2 : gmap string nat := <["limit" := 3]> (<["other" := 4]> ∅).
End EngineExamples.

(* ------------------------------------------------------------------ *)
(** ** Concrete validators for construction, registration and lookup *)

Module ConstructExamples.
  Import Construct Registry.

Abbreviation Check := (@CheckFn unit nat).
Abbreviation VObj := (@ValidatorObj unit nat string).
Abbreviation W := (@World unit nat string).

Definition self_param : SigParameter := mkParameter "self" POSITIONAL_OR_KEYWORD.

  (** [def check_x(self): raise ValidationError("bad")] *)
Definition check_x : Check :=
    {| f_name := "check_x"; f_parameters := [self_param];
       f_introspect := Introspectable;
       f_body := PlainBody (fun _ _ => Raise (ExnVE (mkVE ["bad"] []))) |}.

  (** [def no_params(): ...] *)
Definition no_params : Check :=
    {| f_name := "no_params"; f_parameters := []; f_introspect := Introspectable;
       f_body := PlainBody (fun _ _ => Ret) |}.

  (** A builtin such as [print], variadic positional, but
      [inspect.signature] raises ValueError on it. *)
Definition print_like : Check :=
    {| f_name := "print"; f_parameters := [mkParameter "args" VAR_POSITIONAL];
       f_introspect := NoSignature; f_body := PlainBody (fun _ _ => Ret) |}.

  (** A callable whose [__signature__] attribute is not a [Signature]:
      [inspect.signature] raises TypeError on it. *)
Definition odd_signature : Check :=
    {| f_name := "odd"; f_parameters := [self_param];
       f_introspect := Unsupported; f_body := PlainBody (fun _ _ => Ret) |}.

  (** Type [Foo] with fields [x] (alias "X") and [y] (alias "Y"). *)
Definition foo_fields (tp : string) : option (list ObjectField) :=
    if bool_decide (tp = "Foo") then Some [mkObjectField "x" "X"; mkObjectField "y" "Y"]
    else None.

Definition no_dependencies (_ : string) (_ : Check) : gset string := ∅.

Definition empty_world : W := {| store := ∅; _validators := fun _ => [] |}.

  (** [Validator(check_x, field="x")] stored at identity 0. *)
Definition foo_world0 : W :=
    match construct check_x (Some (FieldName "x")) None with
    | Built vo => {| store := {[0 := vo]}; _validators := fun _ => [] |}
    | CtorTypeError _ => empty_world
    end.

  (** ... registered on [Foo]. *)
Definition foo_world1 : W := snd (_register no_dependencies 0 "Foo" foo_world0).

  (** ... and registered a second time, on [Bar]. *)
Definition foo_second_register : option string * W :=
    _register no_dependencies 0 "Bar" foo_world1.

Definition placeholder : VObj :=
    {| func := no_params; field := None; discard := None; dependencies := ∅;
       params := ∅; owner := None; registered := false; alias_cache := None;
       discarded_cache := None |}.

Definition x_registered : VObj :=
    match store foo_world1 !! 0 with Some vo => vo | None => placeholder end.

  (** [Validator(check_x, field="x", discard=())]: no discard layer. *)
Definition x_no_discard : VObj :=
    {| func := check_x; field := Some (FieldName "x"); discard := Some [];
       dependencies := ∅; params := ∅; owner := Some "Foo"; registered := true;
       alias_cache := None; discarded_cache := None |}.

  (** A class hierarchy [Sub(Base)], a model [Model] standing for [Sub]. *)
Definition mro_of (tp : string) : option (list string) :=
    if bool_decide (tp = "Sub") then Some ["Sub"; "Base"; "object"]
    else if bool_decide (tp = "Base") then Some ["Base"; "object"]
    else if bool_decide (tp = "Model") then Some ["Model"; "object"]
    else None.
Definition origin_of (tp : string) : option string :=
    if bool_decide (tp = "Model") then Some "Sub" else None.
Definition validators_by_type (tp : string) : list string :=
    if bool_decide (tp = "Sub") then ["sub_1"; "sub_2"]
    else if bool_decide (tp = "Base") then ["base_1"]
    else if bool_decide (tp = "Model") then ["model_1"]
    else [].
End ConstructExamples.

(* ------------------------------------------------------------------ *)
(** ** The shape of [_validators] kept by registration *)

Module RegistryInv.
  Import Construct Registry.

(** Every listed validator is stored and registered, no list repeats a
    validator, and no validator is listed under two types. *)
Definition registry_wf {Obj Val TypeId} (w : @World Obj Val TypeId) : Prop :=
  (forall t id, id ∈ _validators w t ->
     exists vo, store w !! id = Some vo /\ registered vo = true) /\
  (forall t, NoDup (_validators w t)) /\
  (forall t1 t2 id, id ∈ _validators w t1 -> id ∈ _validators w t2 -> t1 = t2).
End RegistryInv.

(* ------------------------------------------------------------------ *)
(** ** Concrete functions for the decorator *)

Module DecoratorExamples.
  Import Construct Registry Decorator ConstructExamples.

Abbreviation Info := (@FuncInfo unit nat string).

(** [def check_x(self: Foo): ...] at module level. *)
Definition typed_x : Info :=
  {| fi_check := check_x; fi_is_method := false; fi_method_class := None;
     fi_first_annotation := Some "Foo" |}.

(** [def check_x(self): ...], the first parameter unannotated. *)
Definition untyped_x : Info :=
  {| fi_check := check_x; fi_is_method := false; fi_method_class := None;
     fi_first_annotation := None |}.

(** A method of a class body not yet created: [method_class] is [None]. *)
Definition class_body_x : Info :=
  {| fi_check := check_x; fi_is_method := true; fi_method_class := None;
     fi_first_annotation := None |}.

(** A method bound to the class [Foo]. *)
Definition method_of_foo : Info :=
  {| fi_check := check_x; fi_is_method := true; fi_method_class := Some "Foo";
     fi_first_annotation := Some "Foo" |}.
End DecoratorExamples.

(* ------------------------------------------------------------------ *)
(** ** More concrete inputs *)

Module MoreExamples.
  Import Engine Construct Registry ConstructExamples.

(** A validator reading field "y" whose check raises
    [NonTrivialDependency] (it reads an attribute of its owner). *)
Definition ntd_y : @Validator unit nat :=
  {| v_name := "ntd_y"; v_params := ∅; v_dependencies := {["y"]};
     v_validate := fun _ _ => Raise (ExnNTD None) |}.

Definition kwargs_other : gmap string nat := <["other" := 4]> ∅.

(** The unregistered [Validator(check_x, field="x")] of [foo_world0]. *)
Definition x_fresh : VObj :=
  match store foo_world0 !! 0 with Some vo => vo | None => placeholder end.

(** [Validator(check_x)], no field and no discard. *)
Definition x_plain : VObj :=
  match construct check_x None None with Built vo => vo | CtorTypeError _ => placeholder end.
End MoreExamples.

(* ================================================================== *)
(** * Theorems *)

(** A decidable proposition on concrete data, settled by evaluation. *)
Ltac decide_by_eval :=
  match goal with |- ?P => apply (bool_decide_unpack P); vm_compute; exact I end.

Module EngineFacts.
  Import Engine.

Lemma run_skip {Obj Val} (obj : Obj) (kw : gmap string Val) d k err v rest :
    negb (Nat.eqb k 0) && negb (passes d v) = true ->
    run obj kw d k err (v :: rest) = run obj kw d k err rest.
  Proof. intros H. simpl. rewrite H. reflexivity. Qed.

  (** Every outcome of the loop: the instance returned, or one of the
      exceptions the engine lets out (never a Discard). *)
Lemma run_shape {Obj Val} (obj : Obj) (kw : gmap string Val) l :
    forall d k err,
      run obj kw d k err l = Returned obj \/
      (exists e, run obj kw d k err l = Raised (ExnVE e)) \/
      run obj kw d k err l = Raised ExnAssert \/
      (exists n, run obj kw d k err l = Raised (ExnNTD n)) \/
      (exists m, run obj kw d k err l = Raised (ExnBase m)).
  Proof.
    induction l as [|v rest IH]; intros d k err; simpl.
    - destruct err; eauto.
    - destruct (negb (Nat.eqb k 0) && negb (passes d v)); [apply IH|].
      destruct (call_validator v obj kw) as [|[]]; eauto 10.
  Qed.

  (** Once a failure has been accumulated the instance is never returned. *)
Lemma run_error_raises {Obj Val} (obj : Obj) (kw : gmap string Val) l :
    forall d k e o, run obj kw d k (Some e) l <> Returned o.
  Proof.
    induction l as [|v rest IH]; intros d k e o; simpl; [discriminate|].
    destruct (negb (Nat.eqb k 0) && negb (passes d v)); [apply IH|].
    destruct (call_validator v obj kw) as [|[]]; try discriminate; apply IH.
  Qed.

  (** With no failure surfacing, the loop returns the instance. *)
Lemma run_all_return {Obj Val} (obj : Obj) (kw : gmap string Val) l :
    (forall v, v ∈ l -> call_validator v obj kw = Ret) ->
    forall d k, run obj kw d k None l = Returned obj.
  Proof.
    induction l as [|v rest IH]; intros Hl d k; simpl; [reflexivity|].
    destruct (negb (Nat.eqb k 0) && negb (passes d v)).
    - apply IH. intros w Hw. apply Hl. by right.
    - rewrite Hl by by left. apply IH. intros w Hw. apply Hl. by right.
  Qed.

  (** The error raised at the end of the loop is the merge, in order, of
      the error accumulated so far and the errors of a subsequence of
      the remaining validators. *)
Lemma run_raises_merged {Obj Val} (obj : Obj) (kw : gmap string Val) l :
    forall d k err e,
      run obj kw d k err l = Raised (ExnVE e) ->
      exists vs es, vs `sublist_of` l /\ Forall2 (EngineErrors.collected obj kw) vs es /\
        EngineErrors.merge_all err es = Some e.
  Proof.
    induction l as [|v rest IH]; intros d k err e H; simpl in H.
    - destruct err as [e'|]; [|discriminate]. injection H as ->.
      exists [], []. split_and!; [constructor|constructor|reflexivity].
    - destruct (negb (Nat.eqb k 0) && negb (passes d v)).
      { destruct (IH _ _ _ _ H) as (vs & es & Hs & Hf & Hm).
        exists vs, es. split_and!; [by constructor|exact Hf|exact Hm]. }
      destruct (call_validator v obj kw) as [|[e1|fs e1|n| |m|m]] eqn:Hc;
        try discriminate.
      + destruct (IH _ _ _ _ H) as (vs & es & Hs & Hf & Hm).
        exists vs, es. split_and!; [by constructor|exact Hf|exact Hm].
      + destruct (IH _ _ _ _ H) as (vs & es & Hs & Hf & Hm).
        exists (v :: vs), (e1 :: es). split_and!; [by constructor| |exact Hm].
        constructor; [left; exact Hc|exact Hf].
      + destruct (IH _ _ _ _ H) as (vs & es & Hs & Hf & Hm).
        exists (v :: vs), (e1 :: es). split_and!; [by constructor| |exact Hm].
        constructor; [right; left; exists fs; exact Hc|exact Hf].
      + destruct (IH _ _ _ _ H) as (vs & es & Hs & Hf & Hm).
        exists (v :: vs), (mkVE [m] [] :: es). split_and!; [by constructor| |exact Hm].
        constructor; [right; right; exists m; split; [exact Hc|reflexivity]|exact Hf].
  Qed.

  (** When no remaining validator lets out an exception, a loop that has
      accumulated an error raises a ValidationError. *)
Lemma run_error_non_fatal {Obj Val} (obj : Obj) (kw : gmap string Val) l :
    (forall v, v ∈ l -> EngineErrors.non_fatal (call_validator v obj kw)) ->
    forall d k e, exists e', run obj kw d k (Some e) l = Raised (ExnVE e').
  Proof.
    induction l as [|v rest IH]; intros Hl d k e; simpl; [eauto|].
    assert (Hr : forall w, w ∈ rest -> EngineErrors.non_fatal (call_validator w obj kw))
      by (intros w Hw; apply Hl; by right).
    destruct (negb (Nat.eqb k 0) && negb (passes d v)); [by apply IH|].
    pose proof (Hl v ltac:(by left)) as Hv.
    destruct (call_validator v obj kw) as [|[]]; simpl in Hv; try contradiction;
      by apply IH.
  Qed.
End EngineFacts.

Module EngineClaims.
  Import Engine EngineErrors EngineExamples EngineFacts.

  (** The first Discard alone does prune: [reads_a] is skipped. *)
Lemma validate_one_discard_prunes :
    validate tt [discards_a; reads_a] ∅ = Raised (ExnVE (mkVE ["A failed"] [])).
  Proof. vm_compute. reflexivity. Qed.

  (** C1 (code_bug): after [discards_a] discards field "a", a later Discard
      of field "b" by [discards_b] rebinds the [discarded] cell that the
      first filter reads, so [reads_a], which depends on "a", runs and its
      failure "C ran" appears in the raised error. *)
Theorem validate_second_discard_reenables_first :
    validate tt [discards_a; discards_b; reads_a] ∅
    = Raised (ExnVE (mkVE ["A failed"; "B failed"; "C ran"] [])).
  Proof. vm_compute. reflexivity. Qed.

  (** C3: dispatch of kwargs to one validator.  With kwargs supplied and
      [params] a strict subset of their keys, the validator gets the
      entries whose keys are in [params]; when [params] differs from the
      keys without being included in them, the assertion fails; when
      [params] equals the keys, or no kwargs are given, it gets all of
      them.  The filtered mapping holds exactly the entries of kwargs
      whose keys are in [params]. *)
Theorem validate_kwargs_dispatch {Obj Val} (v : @Validator Obj Val) (obj : Obj)
      (kwargs : gmap string Val) :
    (kwargs ≠ ∅ -> v_params v ⊂ dom kwargs ->
       call_validator v obj kwargs = v_validate v obj (filter_kwargs (v_params v) kwargs)) /\
    (kwargs ≠ ∅ -> v_params v ≠ dom kwargs -> ~ v_params v ⊆ dom kwargs ->
       call_validator v obj kwargs = Raise ExnAssert) /\
    (v_params v = dom kwargs \/ kwargs = ∅ ->
       call_validator v obj kwargs = v_validate v obj kwargs) /\
    (forall k, filter_kwargs (v_params v) kwargs !! k =
               if bool_decide (k ∈ v_params v) then kwargs !! k else None).
  Proof.
    unfold call_validator. split; [|split; [|split]].
    - intros Hne [Hsub Hnsup].
      rewrite (bool_decide_eq_true_2 (kwargs ≠ ∅)) by done.
      rewrite (bool_decide_eq_true_2 (v_params v ≠ dom kwargs))
        by (intros Heq; apply Hnsup; rewrite Heq; done).
      rewrite (bool_decide_eq_true_2 (v_params v ⊆ dom kwargs)) by done.
      reflexivity.
    - intros Hne Hneq Hnsub.
      rewrite (bool_decide_eq_true_2 (kwargs ≠ ∅)) by done.
      rewrite (bool_decide_eq_true_2 (v_params v ≠ dom kwargs)) by done.
      rewrite (bool_decide_eq_false_2 (v_params v ⊆ dom kwargs)) by done.
      reflexivity.
    - intros [Heq|Hemp].
      + rewrite (bool_decide_eq_false_2 (v_params v ≠ dom kwargs)) by auto.
        rewrite andb_false_r. reflexivity.
      + rewrite (bool_decide_eq_false_2 (kwargs ≠ ∅)) by auto. reflexivity.
    - intros k. unfold filter_kwargs. rewrite map_lookup_filter.
      destruct (kwargs !! k) as [x|]; simpl;
        case_bool_decide; simpl; repeat case_guard; simpl; naive_solver.
  Qed.

Lemma validate_kwargs_dispatch_witness :
    kwargs_2 ≠ ∅ /\ v_params takes_limit ⊂ dom kwargs_2 /\
    call_validator takes_limit tt kwargs_2 = Ret.
  Proof.
    assert (H1 : kwargs_2 ≠ ∅) by (vm_compute; discriminate).
    assert (H2 : v_params takes_limit ⊂ dom kwargs_2)
      by (apply (bool_decide_unpack _); vm_compute; reflexivity).
    split; [exact H1|split; [exact H2|]].
    rewrite (proj1 (validate_kwargs_dispatch takes_limit tt kwargs_2) H1 H2).
    vm_compute. reflexivity.
  Defined.

  (** C5 (counterexample): a check raising [ValidationError()] makes
      [validate] raise that empty error: the accumulated error is raised
      whenever it is not [None]. *)
Lemma validate_raises_empty_error :
    validate tt [raises_empty] ∅ = Raised (ExnVE (mkVE [] [])).
  Proof. vm_compute. reflexivity. Qed.

  (** C5 (amended): [validate] returns the instance it was given when no
      validator surfaces a failure, never returns another value, and
      otherwise raises: the merged ValidationError (possibly empty), an
      AssertionError, a NonTrivialDependency or a non-[Exception]
      BaseException; a Discard never surfaces.  Once a failure has been
      accumulated (from any state of the loop) the instance is not
      returned, and a ValidationError is raised unless a later validator
      lets out one of those three exceptions; the ValidationError raised
      is the accumulated error merged, in order, with the errors
      collected afterwards. *)
Theorem validate_returns_or_raises {Obj Val} (obj : Obj)
      (vs : list (@Validator Obj Val)) (kw : gmap string Val) :
    ((forall v, v ∈ vs -> call_validator v obj kw = Ret) ->
       validate obj vs kw = Returned obj) /\
    (forall o, validate obj vs kw = Returned o -> o = obj) /\
    (forall fs e, validate obj vs kw <> Raised (ExnDiscard fs e)) /\
    (validate obj vs kw = Returned obj \/
     (exists e, validate obj vs kw = Raised (ExnVE e)) \/
     validate obj vs kw = Raised ExnAssert \/
     (exists n, validate obj vs kw = Raised (ExnNTD n)) \/
     (exists m, validate obj vs kw = Raised (ExnBase m))) /\
    (forall e' , validate obj vs kw = Raised (ExnVE e') ->
       exists vs' es, vs' `sublist_of` vs /\ Forall2 (collected obj kw) vs' es /\
         merge_all None es = Some e') /\
    (forall d k e l,
       ((exists e', run obj kw d k (Some e) l = Raised (ExnVE e')) \/
        run obj kw d k (Some e) l = Raised ExnAssert \/
        (exists n, run obj kw d k (Some e) l = Raised (ExnNTD n)) \/
        (exists m, run obj kw d k (Some e) l = Raised (ExnBase m))) /\
       ((forall v, v ∈ l -> non_fatal (call_validator v obj kw)) ->
          exists e', run obj kw d k (Some e) l = Raised (ExnVE e')) /\
       (forall e', run obj kw d k (Some e) l = Raised (ExnVE e') ->
          exists vs' es, vs' `sublist_of` l /\ Forall2 (collected obj kw) vs' es /\
            merge_all (Some e) es = Some e')).
  Proof.
    unfold validate.
    pose proof (run_shape obj kw vs ∅ 0 None) as Hs.
    split_and!.
    - intros H. apply run_all_return. exact H.
    - intros o Ho. rewrite Ho in Hs.
      destruct Hs as [H|[[e H]|[H|[[n H]|[m H]]]]]; congruence.
    - intros fs e He. rewrite He in Hs.
      destruct Hs as [H|[[e' H]|[H|[[n H]|[m H]]]]]; congruence.
    - exact Hs.
    - intros e' H. exact (run_raises_merged obj kw vs _ _ _ _ H).
    - intros d k e l. split_and!.
      + destruct (run_shape obj kw l d k (Some e)) as [H|H]; [|exact H].
        exfalso. exact (run_error_raises obj kw l d k e obj H).
      + intros Hl. exact (run_error_non_fatal obj kw l Hl d k e).
      + intros e' H. exact (run_raises_merged obj kw l _ _ _ _ H).
  Qed.

Lemma validate_returns_or_raises_witness :
    (forall v, v ∈ [takes_limit] -> call_validator v tt kwargs_2 = Ret) /\
    validate tt [takes_limit] kwargs_2 = Returned tt /\
    (forall v, v ∈ [reads_a; reads_y] -> non_fatal (call_validator v tt ∅)) /\
    exists e', run tt ∅ ∅ 0 (Some (mkVE ["A failed"] [])) [reads_a; reads_y]
               = Raised (ExnVE e').
  Proof.
    assert (H : forall v, v ∈ [takes_limit] -> call_validator v tt kwargs_2 = Ret).
    { intros v Hv. apply list_elem_of_singleton in Hv. subst v.
      vm_compute. reflexivity. }
    assert (Hn : forall v, v ∈ [reads_a; reads_y] -> non_fatal (call_validator v tt ∅)).
    { intros v Hv.
      apply elem_of_cons in Hv as [->|Hv]; [vm_compute; exact I|].
      apply elem_of_cons in Hv as [->|Hv]; [vm_compute; exact I|].
      apply elem_of_nil in Hv. contradiction. }
    split_and!; [exact H| |exact Hn|].
    - exact (proj1 (validate_returns_or_raises tt [takes_limit] kwargs_2) H).
    - destruct (validate_returns_or_raises tt ([] : list (@Validator unit nat)) ∅)
        as (_ & _ & _ & _ & _ & Hrun).
      exact (proj1 (proj2 (Hrun ∅ 0 (mkVE ["A failed"] []) [reads_a; reads_y])) Hn).
  Defined.

  (** C8 (counterexample): a check interrupted by [KeyboardInterrupt], a
      [BaseException] that is not an [Exception], aborts [validate]; the
      failure of the later [reads_y] is not collected. *)
Lemma validate_base_exception_aborts :
    validate tt [interrupted; reads_y] ∅ = Raised (ExnBase "KeyboardInterrupt").
  Proof. vm_compute. reflexivity. Qed.

  (** C8 (amended): an [Exception] other than ValidationError, Discard,
      NonTrivialDependency and AssertionError raised by a validator that
      the working iterator yields is merged as a flat ValidationError
      carrying its message, and the loop goes on with the next
      validator. *)
Theorem validate_other_exception_collected {Obj Val} (obj : Obj)
      (kw : gmap string Val) d k err (v : @Validator Obj Val) rest m :
    (k = 0 \/ passes d v = true) ->
    call_validator v obj kw = Raise (ExnOther m) ->
    run obj kw d k err (v :: rest)
    = run obj kw d k (Some (merge_errors err (mkVE [m] []))) rest.
  Proof.
    intros Hy Hc. simpl.
    assert (Hb : negb (Nat.eqb k 0) && negb (passes d v) = false).
    { destruct Hy as [ -> | -> ]; [reflexivity | apply andb_false_r]. }
    rewrite Hb, Hc. reflexivity.
  Qed.

Lemma validate_other_exception_collected_witness :
    call_validator raises_value_error tt ∅ = Raise (ExnOther "boom") /\
    validate tt [raises_value_error; reads_y] ∅
    = Raised (ExnVE (mkVE ["boom"; "Y bad"] [])).
  Proof.
    assert (Hc : call_validator raises_value_error tt ∅ = Raise (ExnOther "boom"))
      by reflexivity.
    split; [exact Hc|]. unfold validate.
    rewrite (validate_other_exception_collected tt ∅ ∅ 0 None raises_value_error
               [reads_y] "boom" (or_introl eq_refl) Hc).
    vm_compute. reflexivity.
  Defined.
End EngineClaims.

Module ConstructClaims.
  Import Construct Registry ConstructExamples.

Lemma ParamKind_eqb_true k1 k2 : ParamKind_eqb k1 k2 = true <-> k1 = k2.
  Proof. destruct k1, k2; simpl; split; congruence. Qed.

  (** C2 (counterexample): [Validator(check_x, field="x")] registered on
      [Foo]: its discard set defaults to [{x}], so a failing check
      surfaces as a Discard, not as a ValidationError. *)
Lemma field_validator_surfaces_discard :
    fst (wrapped_call foo_fields x_registered tt ∅)
    = Raise (ExnDiscard {["x"]} (mkVE [] [("X", mkVE ["bad"] [])])).
  Proof. vm_compute. reflexivity. Qed.

  (** C2 (amended): for a validator with a target field whose check
      raises a ValidationError [err], the error becomes
      [ValidationError(children={alias: err})], with no flat messages;
      [alias] is the cached alias, or else the public alias of the field
      in [object_fields(owner)], and is cached afterwards.  It surfaces
      as such when the discard set is empty and as the error carried by a
      Discard otherwise. *)
Theorem field_error_rekeyed {Obj Val TypeId}
      (fo : TypeId -> option (list ObjectField)) (vo : @ValidatorObj Obj Val TypeId)
      fld obj kw err alias :
    field vo = Some fld ->
    call_func (func vo) obj kw = Raise (ExnVE err) ->
    match alias_cache vo with
    | Some a => a = alias
    | None => resolve_alias fo (owner vo) fld = inl alias
    end ->
    alias_cache (snd (wrapped_call fo vo obj kw)) = Some alias /\
    (discard_active (discard vo) = false ->
       fst (wrapped_call fo vo obj kw) = Raise (ExnVE (mkVE [] [(alias, err)]))) /\
    (discard_active (discard vo) = true ->
       exists ds, fst (wrapped_call fo vo obj kw)
                  = Raise (ExnDiscard ds (mkVE [] [(alias, err)]))).
  Proof.
    intros Hf Hc Ha. unfold wrapped_call, field_layer.
    rewrite Hf, Hc.
    assert (Hl : match alias_cache vo with
                 | Some a => (Raise (ExnVE (mkVE [] [(a, err)])), Some a)
                 | None => match resolve_alias fo (owner vo) fld with
                           | inl a => (Raise (ExnVE (mkVE [] [(a, err)])), Some a)
                           | inr x => (Raise x, None)
                           end
                 end = (Raise (ExnVE (mkVE [] [(alias, err)])), Some alias)).
    { destruct (alias_cache vo); [subst; reflexivity|rewrite Ha; reflexivity]. }
    rewrite Hl. unfold discard_active.
    destruct (discard vo) as [[|d ds]|]; simpl; eauto; split_and!; eauto; discriminate.
  Qed.

Lemma field_error_rekeyed_witness :
    field x_no_discard = Some (FieldName "x") /\
    fst (wrapped_call foo_fields x_no_discard tt ∅)
    = Raise (ExnVE (mkVE [] [("X", mkVE ["bad"] [])])).
  Proof.
    split; [reflexivity|].
    apply (field_error_rekeyed foo_fields x_no_discard (FieldName "x") tt ∅
             (mkVE ["bad"] []) "X"); reflexivity.
  Defined.

  (** C6: the layers compose outward: check (generator-converted), field
      re-keying, discard conversion.  Construction defaults the discard
      set to [(field,)] when a field and no discard set are given; with
      an active (non-empty) discard set, a check raising [err] surfaces
      as a Discard carrying the resolved discarded names and the
      field-keyed error (or [err] itself without a target field). *)
Theorem discard_carries_keyed_error {Obj Val TypeId}
      (fo : TypeId -> option (list ObjectField)) :
    (forall (f : @CheckFn Obj Val) fld disc (vo : @ValidatorObj Obj Val TypeId),
       construct f fld disc = Built vo ->
       func vo = f /\ field vo = fld /\
       discard vo = (match fld, disc with Some x, None => Some [x] | _, _ => disc end) /\
       alias_cache vo = None /\ discarded_cache vo = None) /\
    (forall (vo : @ValidatorObj Obj Val TypeId) d obj kw err,
       discard vo = Some d -> discard_active (discard vo) = true ->
       call_func (func vo) obj kw = Raise (ExnVE err) ->
       let names := match discarded_cache vo with
                    | Some s => s
                    | None => list_to_set (map get_field_name d)
                    end in
       (forall fl alias, field vo = Some fl ->
          match alias_cache vo with
          | Some a => a = alias
          | None => resolve_alias fo (owner vo) fl = inl alias
          end ->
          fst (wrapped_call fo vo obj kw)
          = Raise (ExnDiscard names (mkVE [] [(alias, err)]))) /\
       (field vo = None ->
          fst (wrapped_call fo vo obj kw) = Raise (ExnDiscard names err))).
  Proof.
    split.
    - intros f fld disc vo Hb. unfold construct in Hb.
      destruct (signature f) as [ps| |]; [|injection Hb as <-; done|discriminate].
      repeat case_bool_decide; try discriminate;
        repeat (destruct (existsb _ _); try discriminate);
        injection Hb as <-; done.
    - intros vo d obj kw err Hd Hact Hc names. split.
      + intros fl alias Hf Ha.
        pose proof (field_error_rekeyed fo vo fl obj kw err alias Hf Hc Ha)
          as [_ [_ H]].
        unfold wrapped_call, field_layer in *. rewrite Hf, Hc in *.
        rewrite Hd in Hact |- *. rewrite Hact.
        destruct (alias_cache vo) as [a|] eqn:Hac.
        * subst a. reflexivity.
        * rewrite Ha. reflexivity.
      + intros Hf. unfold wrapped_call. rewrite Hd in Hact |- *.
        rewrite Hf, Hc, Hact. reflexivity.
  Qed.

Lemma discard_carries_keyed_error_witness :
    discard x_registered = Some [FieldName "x"] /\
    fst (wrapped_call foo_fields x_registered tt ∅)
    = Raise (ExnDiscard {["x"]} (mkVE [] [("X", mkVE ["bad"] [])])).
  Proof.
    assert (Hd : discard x_registered = Some [FieldName "x"]) by reflexivity.
    split; [exact Hd|].
    exact (proj1 (proj2 (discard_carries_keyed_error foo_fields)
                    x_registered [FieldName "x"] tt ∅ (mkVE ["bad"] [])
                    Hd eq_refl eq_refl)
              (FieldName "x") "X" eq_refl eq_refl).
  Defined.
End ConstructClaims.

Module RegistryClaims.
  Import Construct Registry ConstructExamples.

  (** A first registration appends the validator at the end of its
      owner's list: a type's list is in registration order. *)
Lemma register_appends {Obj Val TypeId} `{EqDecision TypeId}
      fad id own (w : @World Obj Val TypeId) vo :
    store w !! id = Some vo -> registered vo = false ->
    fst (_register fad id own w) = None /\
    _validators (snd (_register fad id own w)) own = (_validators w own ++ [id])%list.
  Proof.
    intros Hs Hr. unfold _register. rewrite Hs, Hr. simpl.
    unfold registry_append. rewrite decide_True by reflexivity. done.
  Qed.

  (** A second registration raises RuntimeError. *)
Lemma register_twice_raises {Obj Val TypeId} `{EqDecision TypeId}
      fad id own (w : @World Obj Val TypeId) vo :
    store w !! id = Some vo -> registered vo = true ->
    fst (_register fad id own w) = Some "Validator already registered".
  Proof. intros Hs Hr. unfold _register. rewrite Hs, Hr. reflexivity. Qed.

  (** C7 (code_bug): [_register] assigns [self.owner] before testing
      [self._registered]: registering [check_x]'s validator on [Bar]
      after [Foo] raises, yet leaves its owner set to [Bar], and the
      object listed under [Foo] is that same object. *)
Theorem second_register_overwrites_owner :
    fst foo_second_register = Some "Validator already registered" /\
    option_map owner (store foo_world1 !! 0) = Some (Some "Foo") /\
    option_map owner (store (snd foo_second_register) !! 0) = Some (Some "Bar") /\
    _validators (snd foo_second_register) "Foo" = [0].
  Proof. vm_compute. repeat split. Qed.

  (** C4: [get_validators(tp)] is the concatenation of the lists of the
      classes of [tp.__mro__] (tp first, then its ancestors in MRO
      order), or [tp]'s own list for a type without MRO, followed by the
      validators of its model origin computed by the same function. *)
Theorem get_validators_order {TypeId A} (validators_of : TypeId -> list A)
      mro model_origin n tp vs :
    get_validators validators_of mro model_origin (S n) tp = Some vs ->
    exists own rest,
      vs = (own ++ rest)%list /\
      (forall ancestors, mro tp = Some (tp :: ancestors) ->
         own = (validators_of tp ++ concat (map validators_of ancestors))%list) /\
      (mro tp = None -> own = validators_of tp) /\
      (model_origin tp = None -> rest = []) /\
      (forall origin, model_origin tp = Some origin ->
         get_validators validators_of mro model_origin n origin = Some rest).
  Proof.
    simpl. intros H.
    set (own := match mro tp with
                | Some classes => concat (map validators_of classes)
                | None => validators_of tp
                end) in H.
    exists own.
    destruct (model_origin tp) as [o|] eqn:Ho.
    - destruct (get_validators validators_of mro model_origin n o) as [more|] eqn:Hg;
        [|discriminate].
      injection H as <-. exists more. split_and!; try done.
      + intros ancs Hm. subst own. rewrite Hm. reflexivity.
      + intros Hm. subst own. rewrite Hm. reflexivity.
      + intros o' [= <-]. exact Hg.
    - injection H as <-. exists []. split_and!; try done.
      + by rewrite app_nil_r.
      + intros ancs Hm. subst own. rewrite Hm. reflexivity.
      + intros Hm. subst own. rewrite Hm. reflexivity.
  Qed.

Lemma get_validators_order_witness :
    mro_of "Model" = Some ["Model"; "object"] /\
    get_validators validators_by_type mro_of origin_of 3 "Model"
      = Some ["model_1"; "sub_1"; "sub_2"; "base_1"] /\
    exists own rest,
      ["model_1"; "sub_1"; "sub_2"; "base_1"] = (own ++ rest)%list /\
      own = ["model_1"] /\
      get_validators validators_by_type mro_of origin_of 2 "Sub" = Some rest.
  Proof.
    assert (Hg : get_validators validators_by_type mro_of origin_of 3 "Model"
                 = Some ["model_1"; "sub_1"; "sub_2"; "base_1"])
      by (vm_compute; reflexivity).
    split; [reflexivity|split; [exact Hg|]].
    destruct (get_validators_order validators_by_type mro_of origin_of 2 "Model" _ Hg)
      as (own & rest & Hvs & Hmro & _ & _ & Horig).
    exists own, rest. split; [exact Hvs|split].
    - rewrite (Hmro ["object"] eq_refl). reflexivity.
    - apply Horig. reflexivity.
  Defined.

  (** C9 (counterexample): [print] declares a variadic positional
      parameter, but [inspect.signature] raises ValueError on it, so the
      checks are skipped and construction succeeds. *)
Lemma construct_accepts_uninspectable_variadic :
    p_kind self_param = POSITIONAL_OR_KEYWORD /\
    f_parameters print_like = [mkParameter "args" VAR_POSITIONAL] /\
    exists vo, @construct unit nat string print_like None None = Built vo.
  Proof. split; [reflexivity|split; [reflexivity|]]. eexists. reflexivity. Qed.

  (** C9 (amended): unless [inspect.signature] raises ValueError on it, a
      check function with no parameter, or with a variadic keyword or
      variadic positional parameter, makes construction raise TypeError. *)
Theorem construct_rejects_bad_signature {Obj Val TypeId}
      (f : @CheckFn Obj Val) fld disc :
    f_introspect f <> NoSignature ->
    (f_parameters f = [] \/
     exists p, p ∈ f_parameters f /\
               (p_kind p = VAR_KEYWORD \/ p_kind p = VAR_POSITIONAL)) ->
    exists msg, @construct Obj Val TypeId f fld disc = CtorTypeError msg.
  Proof.
    intros Hi Hp. unfold construct, signature.
    destruct (f_introspect f); [|contradiction|eauto].
    case_bool_decide as Hnil; [eauto|].
    destruct Hp as [Hp|(p & Hin & Hk)]; [contradiction|].
    destruct (existsb (fun p => ParamKind_eqb (p_kind p) VAR_KEYWORD) (f_parameters f))
      eqn:Hkw; [eauto|].
    destruct (existsb (fun p => ParamKind_eqb (p_kind p) VAR_POSITIONAL) (f_parameters f))
      eqn:Hvp; [eauto|].
    exfalso. apply list_elem_of_In in Hin.
    destruct Hk as [Hk|Hk].
    - assert (existsb (fun p => ParamKind_eqb (p_kind p) VAR_KEYWORD) (f_parameters f) = true)
        as Ht by (apply existsb_exists; exists p; rewrite Hk; auto).
      congruence.
    - assert (existsb (fun p => ParamKind_eqb (p_kind p) VAR_POSITIONAL) (f_parameters f) = true)
        as Ht by (apply existsb_exists; exists p; rewrite Hk; auto).
      congruence.
  Qed.

Lemma construct_rejects_bad_signature_witness :
    @construct unit nat string no_params None None
    = CtorTypeError "Validator must have at least one parameter".
  Proof.
    destruct (@construct_rejects_bad_signature unit nat string no_params None None
                ltac:(discriminate) (or_introl eq_refl)) as [msg Hmsg].
    rewrite Hmsg. vm_compute in Hmsg. rewrite <- Hmsg. reflexivity.
  Defined.

  (** With empty [params], [validate] calls a validator with the
      instance alone. *)
Lemma call_validator_no_params {Obj Val} (v : @Engine.Validator Obj Val) obj kw :
    Engine.v_params v = ∅ ->
    Engine.call_validator v obj kw = Engine.v_validate v obj ∅.
  Proof.
    intros Hp. unfold Engine.call_validator. rewrite Hp.
    destruct (decide (kw = ∅)) as [->|Hne].
    - rewrite (bool_decide_eq_false_2 (∅ ≠ ∅)) by auto. reflexivity.
    - rewrite (bool_decide_eq_true_2 (kw ≠ ∅)) by done.
      rewrite (bool_decide_eq_true_2 (∅ ≠ dom kw))
        by (intros Hd; apply Hne; apply dom_empty_iff_L; done).
      rewrite (bool_decide_eq_true_2 (∅ ⊆ dom kw)) by set_solver.
      f_equal. unfold Engine.filter_kwargs. apply map_eq. intros k.
      rewrite map_lookup_filter, lookup_empty.
      destruct (kw !! k); simpl; [|reflexivity].
      case_guard; [set_solver|reflexivity].
  Qed.

  (** C10 (counterexample): when [inspect.signature] raises TypeError
      rather than ValueError, construction fails. *)
Lemma construct_fails_on_signature_type_error :
    @construct unit nat string odd_signature None None
    = CtorTypeError "signature: unsupported callable".
  Proof. reflexivity. Qed.

  (** C10 (amended): when [inspect.signature] raises ValueError on the
      check function, construction succeeds with empty [params], skipping
      the parameter checks, and [validate] calls the validator with the
      instance alone. *)
Theorem construct_no_signature {Obj Val TypeId}
      (fo : TypeId -> option (list ObjectField)) (f : @CheckFn Obj Val) fld disc :
    f_introspect f = NoSignature ->
    exists vo, @construct Obj Val TypeId f fld disc = Built vo /\
      params vo = ∅ /\
      forall obj kw,
        Engine.call_validator (engine_view fo vo) obj kw
        = Engine.v_validate (engine_view fo vo) obj ∅.
  Proof.
    intros Hi. unfold construct, signature. rewrite Hi.
    eexists. split; [reflexivity|split; [reflexivity|]].
    intros obj kw. apply call_validator_no_params. reflexivity.
  Qed.

Lemma construct_no_signature_witness :
    f_introspect print_like = NoSignature /\
    exists vo, @construct unit nat string print_like None None = Built vo /\
      Engine.call_validator (engine_view foo_fields vo) tt EngineExamples.kwargs_2
      = Engine.v_validate (engine_view foo_fields vo) tt ∅.
  Proof.
    split; [reflexivity|].
    destruct (@construct_no_signature unit nat string foo_fields print_like None None
                eq_refl) as (vo & Hb & _ & Hc).
    exists vo. split; [exact Hb|]. apply Hc.
  Defined.
End RegistryClaims.

Module GettersFacts.
  Import Construct Getters.

Lemma foldl_insert_lookup (fs : list ObjectField) (m : gmap string ObjectField) n :
  foldl (fun m f => <[of_name f := f]> m) m fs !! n
  = match last (filter (fun f => of_name f = n) fs) with
    | Some f => Some f
    | None => m !! n
    end.
Proof.
  induction fs as [|f fs IH] in m |- *; simpl; [reflexivity|].
  rewrite IH, filter_cons.
  destruct (decide (of_name f = n)) as [<-|Hne].
  - rewrite last_cons. destruct (last (filter _ fs)); [reflexivity|].
    by rewrite lookup_insert_eq.
  - by rewrite lookup_insert_ne.
Qed.

(** [object_fields]: the field found under a name is the last field of
    that name, as with the [OrderedDict] built from the visited fields;
    a name no field has is absent. *)
Theorem object_fields_lookup_last (fs : list ObjectField) :
  exists m, object_fields (Some fs) = Some m /\
    forall n, m !! n = last (filter (fun f => of_name f = n) fs).
Proof.
  eexists. split; [reflexivity|]. intros n. rewrite foldl_insert_lookup.
  destruct (last _); reflexivity.
Qed.

Lemma filter_name_absent (fs : list ObjectField) n :
  n ∉ map of_name fs -> filter (fun f => of_name f = n) fs = [].
Proof.
  induction fs as [|f fs IH]; simpl; [reflexivity|].
  intros Hn. apply not_elem_of_cons in Hn as [Hf Hfs].
  rewrite filter_cons, decide_False by congruence. exact (IH Hfs).
Qed.

Lemma filter_name_unique (fs : list ObjectField) f :
  NoDup (map of_name fs) -> f ∈ fs -> filter (fun g => of_name g = of_name f) fs = [f].
Proof.
  induction fs as [|g fs IH]; simpl; [intros _ Hin; inversion Hin|].
  intros Hnd Hin. apply NoDup_cons in Hnd as [Hg Hnd].
  rewrite filter_cons. apply elem_of_cons in Hin as [->|Hin].
  - rewrite decide_True by reflexivity. f_equal. by apply filter_name_absent.
  - rewrite decide_False.
    + by apply IH.
    + intros Heq. apply Hg. rewrite Heq. by apply list_elem_of_fmap_2.
Qed.

(** [getattr(get_alias(obj), name)] on a type (or an instance of it)
    whose fields have distinct names gives the alias of the field of
    that name, and raises [AttributeError(name)] for any other name. *)
Theorem get_alias_distinct_fields {TypeId} (fo : TypeId -> option (list ObjectField))
    (obj : Target) (fs : list ObjectField) :
  fo (target_type obj) = Some fs -> NoDup (map of_name fs) ->
  (forall f, f ∈ fs -> get_alias fo obj (of_name f) = inl (of_alias f)) /\
  (forall n, n ∉ map of_name fs -> get_alias fo obj n = inr (AttributeError n)).
Proof.
  intros Hfo Hnd. unfold get_alias, object_fields2. rewrite Hfo. split.
  - intros f Hf. unfold object_fields. rewrite foldl_insert_lookup.
    rewrite filter_name_unique by done. reflexivity.
  - intros n Hn. unfold object_fields. rewrite foldl_insert_lookup.
    rewrite filter_name_absent by done. reflexivity.
Qed.

(** The alias under which the field layer of a Validator re-keys an error
    is [getattr(get_alias(owner), get_field_name(field))], on the owner
    class or on any instance of it. *)
Theorem resolve_alias_is_get_alias {TypeId} (fo : TypeId -> option (list ObjectField))
    (t : TypeId) (fld : FieldOrName) (a : string) :
  (resolve_alias fo (Some t) fld = inl a <->
   get_alias fo (TClass t) (get_field_name fld) = inl a) /\
  get_alias fo (TInstance t) (get_field_name fld)
  = get_alias fo (TClass t) (get_field_name fld).
Proof.
  unfold resolve_alias, get_alias, object_fields2. simpl. split; [|reflexivity].
  destruct (object_fields (fo t)) as [m|]; [|split; discriminate].
  destruct (m !! get_field_name fld); split; congruence.
Qed.

Import ConstructExamples.

Lemma get_alias_distinct_fields_witness :
  foo_fields (target_type (TClass "Foo"))
    = Some [mkObjectField "x" "X"; mkObjectField "y" "Y"] /\
  NoDup (map of_name [mkObjectField "x" "X"; mkObjectField "y" "Y"]) /\
  get_alias foo_fields (TClass "Foo") "y" = inl "Y" /\
  get_alias foo_fields (TInstance "Foo") "z" = inr (AttributeError "z").
Proof.
  assert (H1 : foo_fields (target_type (TClass "Foo"))
                 = Some [mkObjectField "x" "X"; mkObjectField "y" "Y"])
    by (vm_compute; reflexivity).
  assert (H2 : NoDup (map of_name [mkObjectField "x" "X"; mkObjectField "y" "Y"]))
    by (decide_by_eval).
  assert (H1' : foo_fields (target_type (TInstance "Foo"))
                  = Some [mkObjectField "x" "X"; mkObjectField "y" "Y"])
    by (vm_compute; reflexivity).
  split_and!; [exact H1 | exact H2 | |].
  - apply (proj1 (get_alias_distinct_fields foo_fields (TClass "Foo") _ H1 H2)
             (mkObjectField "y" "Y")).
    apply elem_of_cons; right; apply elem_of_cons; left; reflexivity.
  - apply (proj2 (get_alias_distinct_fields foo_fields (TInstance "Foo") _ H1' H2) "z").
    decide_by_eval.
Defined.
End GettersFacts.

Module EngineExtra.
  Import Engine EngineFacts.

(** A validator that is called (none caught so far, or its dependencies
    are disjoint from the discarded fields) and raises a
    NonTrivialDependency makes [validate] raise it with the validator
    attached, whatever was accumulated and whatever follows. *)
Theorem run_non_trivial_dependency {Obj Val} (obj : Obj) (kw : gmap string Val)
    d k err (v : @Validator Obj Val) rest n :
  (k = 0 \/ passes d v = true) ->
  call_validator v obj kw = Raise (ExnNTD n) ->
  run obj kw d k err (v :: rest) = Raised (ExnNTD (Some (v_name v))).
Proof.
  intros Hy Hc. simpl.
  assert (Hb : negb (Nat.eqb k 0) && negb (passes d v) = false).
  { destruct Hy as [ -> | -> ]; [reflexivity | apply andb_false_r]. }
  rewrite Hb, Hc. reflexivity.
Qed.

(** A called validator declaring a parameter absent from non-empty
    kwargs makes [validate] raise AssertionError, whatever was
    accumulated and whatever follows. *)
Theorem run_missing_param_asserts {Obj Val} (obj : Obj) (kw : gmap string Val)
    d k err (v : @Validator Obj Val) rest :
  (k = 0 \/ passes d v = true) -> kw ≠ ∅ -> ~ v_params v ⊆ dom kw ->
  run obj kw d k err (v :: rest) = Raised ExnAssert.
Proof.
  intros Hy Hne Hns. simpl.
  assert (Hb : negb (Nat.eqb k 0) && negb (passes d v) = false).
  { destruct Hy as [ -> | -> ]; [reflexivity | apply andb_false_r]. }
  rewrite Hb. unfold call_validator.
  rewrite (bool_decide_eq_true_2 (kw ≠ ∅)) by done.
  rewrite (bool_decide_eq_true_2 (v_params v ≠ dom kw))
    by (intros Heq; apply Hns; rewrite Heq; done).
  rewrite (bool_decide_eq_false_2 (v_params v ⊆ dom kw)) by done.
  reflexivity.
Qed.

(** A called validator that does not return normally is enough for
    [validate] not to return the instance. *)
Theorem run_failure_never_returns {Obj Val} (obj : Obj) (kw : gmap string Val)
    d k err (v : @Validator Obj Val) rest :
  (k = 0 \/ passes d v = true) -> call_validator v obj kw <> Ret ->
  forall o, run obj kw d k err (v :: rest) <> Returned o.
Proof.
  intros Hy Hc o. simpl.
  assert (Hb : negb (Nat.eqb k 0) && negb (passes d v) = false).
  { destruct Hy as [ -> | -> ]; [reflexivity | apply andb_false_r]. }
  rewrite Hb.
  destruct (call_validator v obj kw) as [|[]]; try congruence; apply run_error_raises.
Qed.

Lemma run_no_discard_pruned {Obj Val} (obj : Obj) (kw : gmap string Val) fs k err
    (rest : list (@Validator Obj Val)) :
  (forall w, w ∈ rest -> passes fs w = true ->
     forall fs' e', call_validator w obj kw <> Raise (ExnDiscard fs' e')) ->
  run obj kw fs (S k) err rest
  = run obj kw ∅ 0 err (filter (fun w => passes fs w = true) rest).
Proof.
  induction rest as [|w rest IH] in err |- *; intros Hnd; simpl; [reflexivity|].
  assert (Hr : forall x, x ∈ rest -> passes fs x = true ->
                 forall fs' e', call_validator x obj kw <> Raise (ExnDiscard fs' e'))
    by (intros x Hx; apply Hnd; by right).
  rewrite filter_cons.
  destruct (decide (passes fs w = true)) as [Hp|Hp].
  - rewrite Hp. simpl.
    pose proof (Hnd w ltac:(by left) Hp) as Hw.
    destruct (call_validator w obj kw) as [|[]] eqn:Hc; try (apply IH; exact Hr);
      try reflexivity.
    exfalso. eapply Hw. reflexivity.
  - apply not_true_is_false in Hp. rewrite Hp. simpl. apply IH. exact Hr.
Qed.

(** When the first validator raises a Discard of [fs] and no later
    validator left by the pruning raises a Discard, [validate] behaves
    as a fresh run over the later validators whose dependencies are
    disjoint from [fs], starting from the Discard's error. *)
Theorem validate_single_discard_prunes {Obj Val} (obj : Obj) (kw : gmap string Val)
    (v : @Validator Obj Val) rest fs e :
  call_validator v obj kw = Raise (ExnDiscard fs e) ->
  (forall w, w ∈ rest -> passes fs w = true ->
     forall fs' e', call_validator w obj kw <> Raise (ExnDiscard fs' e')) ->
  validate obj (v :: rest) kw
  = run obj kw ∅ 0 (Some e) (filter (fun w => passes fs w = true) rest).
Proof.
  intros Hc Hnd. unfold validate. simpl. rewrite Hc.
  apply run_no_discard_pruned. exact Hnd.
Qed.

Import EngineExamples MoreExamples.

Lemma run_non_trivial_dependency_witness :
  passes {["a"]} ntd_y = true /\
  call_validator ntd_y tt ∅ = Raise (ExnNTD None) /\
  run tt ∅ {["a"]} 1 (Some (mkVE ["A failed"] [])) [ntd_y; reads_a]
    = Raised (ExnNTD (Some "ntd_y")).
Proof.
  assert (Hp : passes {["a"]} ntd_y = true) by (vm_compute; reflexivity).
  assert (Hc : call_validator ntd_y tt ∅ = Raise (ExnNTD None))
    by (vm_compute; reflexivity).
  split_and!; [exact Hp | exact Hc |].
  exact (run_non_trivial_dependency tt ∅ {["a"]} 1 _ ntd_y [reads_a] None
           (or_intror Hp) Hc).
Defined.

Lemma run_missing_param_asserts_witness :
  kwargs_other ≠ ∅ /\ ~ v_params takes_limit ⊆ dom kwargs_other /\
  run tt kwargs_other ∅ 0 None [takes_limit; reads_a] = Raised ExnAssert.
Proof.
  assert (Hne : kwargs_other ≠ ∅) by (decide_by_eval).
  assert (Hns : ~ v_params takes_limit ⊆ dom kwargs_other)
    by (decide_by_eval).
  split_and!; [exact Hne | exact Hns |].
  exact (run_missing_param_asserts tt kwargs_other ∅ 0 None takes_limit [reads_a]
           (or_introl eq_refl) Hne Hns).
Defined.

Lemma run_failure_never_returns_witness :
  call_validator interrupted tt ∅ <> Ret /\
  forall o, run tt ∅ ∅ 0 None [interrupted; reads_a] <> Returned o.
Proof.
  assert (Hc : call_validator interrupted tt ∅ <> Ret) by (vm_compute; discriminate).
  split; [exact Hc |].
  exact (run_failure_never_returns tt ∅ ∅ 0 None interrupted [reads_a]
           (or_introl eq_refl) Hc).
Defined.

Lemma validate_single_discard_prunes_witness :
  call_validator discards_a tt ∅ = Raise (ExnDiscard {["a"]} (mkVE ["A failed"] [])) /\
  (forall w, w ∈ [reads_a; reads_y] -> passes {["a"]} w = true ->
     forall fs' e', call_validator w tt ∅ <> Raise (ExnDiscard fs' e')) /\
  validate tt [discards_a; reads_a; reads_y] ∅
    = run tt ∅ ∅ 0 (Some (mkVE ["A failed"] []))
        (filter (fun w => passes {["a"]} w = true) [reads_a; reads_y]).
Proof.
  assert (Hc : call_validator discards_a tt ∅
               = Raise (ExnDiscard {["a"]} (mkVE ["A failed"] [])))
    by (vm_compute; reflexivity).
  assert (Hnd : forall w, w ∈ [reads_a; reads_y] -> passes {["a"]} w = true ->
     forall fs' e', call_validator w tt ∅ <> Raise (ExnDiscard fs' e')).
  { intros w Hw _ fs' e'.
    apply elem_of_cons in Hw as [->|Hw]; [vm_compute; discriminate|].
    apply elem_of_cons in Hw as [->|Hw]; [vm_compute; discriminate|].
    apply elem_of_nil in Hw. contradiction. }
  split_and!; [exact Hc | exact Hnd |].
  exact (validate_single_discard_prunes tt ∅ discards_a [reads_a; reads_y] _ _ Hc Hnd).
Defined.
End EngineExtra.

Module RegistryExtra.
  Import Construct Registry RegistryInv.

Section RegistryExtra.
Context {Obj Val TypeId : Type} `{EqDecision TypeId}.
Context (fad : TypeId -> @CheckFn Obj Val -> gset string).

Lemma register_fresh_eq (id : nat) (own : TypeId) (w : @World Obj Val TypeId) vo :
  store w !! id = Some vo -> registered vo = false ->
  _register fad id own w =
  (None, {| store := <[id := {| func := func vo; field := field vo; discard := discard vo;
              dependencies := fad own (func vo) ∪ params vo; params := params vo;
              owner := Some own; registered := true; alias_cache := alias_cache vo;
              discarded_cache := discarded_cache vo |}]> (store w);
            _validators := registry_append (_validators w) own id |}).
Proof. intros Hs Hr. unfold _register. rewrite Hs, Hr. reflexivity. Qed.

Lemma register_error_lists (id : nat) (own : TypeId) (w : @World Obj Val TypeId) msg w' :
  _register fad id own w = (Some msg, w') -> _validators w' = _validators w.
Proof.
  unfold _register. destruct (store w !! id) as [vo|]; [|intros [= _ <-]; reflexivity].
  destruct (registered vo); [intros [= _ <-]; reflexivity | discriminate].
Qed.

Lemma registry_append_elem (reg : TypeId -> list nat) own id t j :
  j ∈ registry_append reg own id t <-> j ∈ reg t \/ (t = own /\ j = id).
Proof.
  unfold registry_append. destruct (decide (t = own)) as [->|Hne].
  - rewrite elem_of_app, list_elem_of_singleton. tauto.
  - split; [tauto|]. intros [Hj|[? _]]; [exact Hj|contradiction].
Qed.

Lemma register_wf_aux (id : nat) (own : TypeId) (w : @World Obj Val TypeId) :
  registry_wf w -> registry_wf (snd (_register fad id own w)).
Proof.
  intros (H1 & H2 & H3). unfold _register.
  destruct (store w !! id) as [vo|] eqn:Hs; [|split_and!; assumption].
  destruct (registered vo) eqn:Hr; simpl.
  - split_and!; simpl; try assumption.
    intros t j Hj. destruct (H1 t j Hj) as (vo' & Hs' & Hr').
    destruct (decide (j = id)) as [->|Hne].
    + rewrite lookup_insert_eq. eexists; split; [reflexivity|reflexivity].
    + rewrite lookup_insert_ne by congruence. eauto.
  - assert (Hnot : forall t, id ∉ _validators w t).
    { intros t Hin. destruct (H1 t id Hin) as (vo' & Hs' & Hr'). congruence. }
    split_and!; simpl.
    + intros t j Hj. apply registry_append_elem in Hj as [Hj|[_ ->]].
      * destruct (H1 t j Hj) as (vo' & Hs' & Hr').
        rewrite lookup_insert_ne by (intros ->; exact (Hnot t Hj)). eauto.
      * rewrite lookup_insert_eq. eexists; split; reflexivity.
    + intros t. unfold registry_append. destruct (decide (t = own)) as [->|]; [|apply H2].
      apply NoDup_app. split_and!; [apply H2| |apply NoDup_singleton].
      intros x Hx Hx'. apply list_elem_of_singleton in Hx' as ->. exact (Hnot own Hx).
    + intros t1 t2 j Hj1 Hj2.
      apply registry_append_elem in Hj1 as [Hj1|[-> ->]];
        apply registry_append_elem in Hj2 as [Hj2|[-> Hj]]; subst; try reflexivity.
      * eauto.
      * exfalso. exact (Hnot t1 Hj1).
      * exfalso. exact (Hnot t2 Hj2).
Qed.

Lemma register_alloc_wf (w : @World Obj Val TypeId) id vo :
  registry_wf w -> store w !! id = None -> registered vo = false ->
  registry_wf {| store := <[id := vo]> (store w); _validators := _validators w |}.
Proof.
  intros (H1 & H2 & H3) Hs Hr. split_and!; simpl; try assumption.
  intros t j Hj. destruct (H1 t j Hj) as (vo' & Hs' & Hr').
  rewrite lookup_insert_ne by (intros ->; congruence). eauto.
Qed.

(** Registering a validator not yet registered succeeds: the stored
    validator gets the owner, is marked registered, its dependencies are
    those found for the owner together with its parameters, and its
    function, field, discard, parameters and caches are kept; its
    identity is appended to the owner's list; no other stored validator
    and no other list changes. *)
Theorem register_first_time (id : nat) (own : TypeId) (w : @World Obj Val TypeId) vo :
  store w !! id = Some vo -> registered vo = false ->
  fst (_register fad id own w) = None /\
  (exists vo', store (snd (_register fad id own w)) !! id = Some vo' /\
     owner vo' = Some own /\ registered vo' = true /\
     dependencies vo' = fad own (func vo) ∪ params vo /\ params vo ⊆ dependencies vo' /\
     func vo' = func vo /\ field vo' = field vo /\ discard vo' = discard vo /\
     params vo' = params vo /\ alias_cache vo' = alias_cache vo /\
     discarded_cache vo' = discarded_cache vo) /\
  (forall j, j <> id -> store (snd (_register fad id own w)) !! j = store w !! j) /\
  _validators (snd (_register fad id own w)) own = (_validators w own ++ [id])%list /\
  (forall t, t <> own -> _validators (snd (_register fad id own w)) t = _validators w t).
Proof.
  intros Hs Hr. rewrite (register_fresh_eq id own w vo Hs Hr). simpl.
  split_and!.
  - reflexivity.
  - eexists. rewrite lookup_insert_eq. split_and!; try reflexivity. simpl. set_solver.
  - intros j Hj. rewrite lookup_insert_ne by congruence. reflexivity.
  - unfold registry_append. rewrite decide_True by reflexivity. reflexivity.
  - intros t Ht. unfold registry_append. rewrite decide_False by exact Ht. reflexivity.
Qed.

(** [_register] keeps the registry well formed: listed validators are
    stored and registered, lists have no repetition, and a validator is
    listed under one type at most; this holds whether it succeeds or
    raises. *)
Theorem register_preserves_wf (id : nat) (own : TypeId) (w : @World Obj Val TypeId) :
  registry_wf w -> registry_wf (snd (_register fad id own w)).
Proof. apply register_wf_aux. Qed.
End RegistryExtra.

Import ConstructExamples MoreExamples.

Lemma register_first_time_witness :
  store foo_world0 !! 0 = Some x_fresh /\ registered x_fresh = false /\
  fst (_register no_dependencies 0 "Foo" foo_world0) = None /\
  _validators (snd (_register no_dependencies 0 "Foo" foo_world0)) "Foo" = [0].
Proof.
  assert (Hs : store foo_world0 !! 0 = Some x_fresh) by (vm_compute; reflexivity).
  assert (Hr : registered x_fresh = false) by (vm_compute; reflexivity).
  destruct (register_first_time no_dependencies 0 "Foo" foo_world0 x_fresh Hs Hr)
    as (Hf & _ & _ & Hl & _).
  split_and!; [exact Hs | exact Hr | exact Hf |]. rewrite Hl. reflexivity.
Defined.

Lemma register_preserves_wf_witness :
  registry_wf foo_world0 /\ registry_wf foo_world1.
Proof.
  assert (Hl : forall t, _validators foo_world0 t = []) by (intros t; reflexivity).
  assert (Hwf : registry_wf foo_world0).
  { split_and!.
    - intros t j Hj. rewrite Hl in Hj. apply elem_of_nil in Hj. contradiction.
    - intros t. rewrite Hl. constructor.
    - intros t1 t2 j Hj. rewrite Hl in Hj. apply elem_of_nil in Hj. contradiction. }
  split; [exact Hwf |].
  exact (register_preserves_wf no_dependencies 0 "Foo" foo_world0 Hwf).
Defined.
End RegistryExtra.

Module DecoratorExtra.
  Import Construct Registry RegistryInv RegistryExtra Decorator.

Section DecoratorExtra.
Context {Obj Val TypeId : Type} `{EqDecision TypeId}.
Context (fad : TypeId -> @CheckFn Obj Val -> gset string).
Context (goot : TypeId -> TypeId).

Lemma construct_built (f : @CheckFn Obj Val) fld disc (vo : @ValidatorObj Obj Val TypeId) :
  construct f fld disc = Built vo ->
  func vo = f /\ field vo = fld /\
  discard vo = match fld, disc with Some x, None => Some [x] | _, _ => disc end /\
  owner vo = None /\ registered vo = false /\
  alias_cache vo = None /\ discarded_cache vo = None.
Proof.
  unfold construct. intros H.
  repeat case_match; simplify_eq; simpl; split_and!; reflexivity.
Qed.

Lemma snd_register_and_return fi id o (w : @World Obj Val TypeId) :
  snd (register_and_return fad fi id o w) = snd (_register fad id o w).
Proof. unfold register_and_return. destruct (_register fad id o w) as [[m|] w']; reflexivity. Qed.

Lemma validator_callable_func (fi : @FuncInfo Obj Val TypeId) fld disc own id
    (w : @World Obj Val TypeId) f w' :
  validator_callable fad goot fi fld disc own id w = (ReturnsFunc f, w') ->
  exists vo o,
    construct (fi_check fi) fld disc = Built vo /\ f = fi_check fi /\
    match own with
    | Some o' => Some o'
    | None => if fi_is_method fi then fi_method_class fi else infer_owner goot fi
    end = Some o /\
    w' = snd (_register fad id o {| store := <[id := vo]> (store w);
                                    _validators := _validators w |}).
Proof.
  intros H. unfold validator_callable in H.
  destruct (construct (fi_check fi) fld disc) as [vo|msg] eqn:Hc; [|discriminate].
  unfold register_and_return in H. exists vo.
  destruct (fi_is_method fi), (fi_method_class fi) as [cls|], own as [o|],
    (infer_owner goot fi) as [io|]; cbv beta iota zeta in H; try discriminate;
    match type of H with
    | context [_register ?a ?b ?c ?d] =>
        exists c; destruct (_register a b c d) as [[m|] w1] eqn:Hr; [discriminate|]
    end;
    injection H as <- <-; split_and!; first [exact Hc | reflexivity].
Qed.

(** When [validator] returns the decorated function, the new Validator
    has been registered: under the [owner] argument if given, else under
    the method's class for a method, else under the type inferred from
    the first parameter's annotation; its identity ends that type's list
    and no other list changes. *)
Theorem validator_registers_function (fi : @FuncInfo Obj Val TypeId) fld disc own id
    (w : @World Obj Val TypeId) f w' :
  validator_callable fad goot fi fld disc own id w = (ReturnsFunc f, w') ->
  f = fi_check fi /\
  exists o vo,
    match own with
    | Some o' => Some o'
    | None => if fi_is_method fi then fi_method_class fi else infer_owner goot fi
    end = Some o /\
    store w' !! id = Some vo /\ owner vo = Some o /\ registered vo = true /\
    func vo = fi_check fi /\
    _validators w' o = (_validators w o ++ [id])%list /\
    (forall t, t <> o -> _validators w' t = _validators w t).
Proof.
  intros H. destruct (validator_callable_func fi fld disc own id w f w' H)
    as (vo & o & Hc & -> & Ho & ->).
  destruct (construct_built _ _ _ _ Hc) as (Hf & _ & _ & _ & Hr & _).
  rewrite (register_fresh_eq fad id o _ vo) by (simpl; rewrite ?lookup_insert_eq; auto).
  split; [reflexivity|]. exists o. eexists. simpl. split_and!.
  - exact Ho.
  - rewrite lookup_insert_eq. reflexivity.
  - reflexivity.
  - reflexivity.
  - exact Hf.
  - unfold registry_append. rewrite decide_True by reflexivity. reflexivity.
  - intros t Ht. unfold registry_append. rewrite decide_False by exact Ht. reflexivity.
Qed.

(** Whenever [validator] does not return the function (it returns the
    Validator or raises), no type's list of validators changes. *)
Theorem validator_failure_keeps_lists (fi : @FuncInfo Obj Val TypeId) fld disc own id
    (w : @World Obj Val TypeId) r w' :
  validator_callable fad goot fi fld disc own id w = (r, w') ->
  (forall f, r <> ReturnsFunc f) ->
  _validators w' = _validators w.
Proof.
  intros H Hnf. unfold validator_callable in H.
  destruct (construct (fi_check fi) fld disc) as [vo|msg];
    [|injection H as <- <-; reflexivity].
  destruct (fi_is_method fi), (fi_method_class fi) as [cls|], own as [o|],
    (infer_owner goot fi) as [io|]; cbv beta iota zeta in H;
    first
      [ injection H as <- <-; reflexivity
      | unfold register_and_return in H;
        match type of H with
        | context [_register ?a ?b ?c ?d] =>
            destruct (_register a b c d) as [[m|] w1] eqn:Hr
        end;
        injection H as <- <-;
        [ rewrite (register_error_lists fad _ _ _ _ _ Hr); reflexivity
        | exfalso; exact (Hnf _ eq_refl) ] ].
Qed.

(** A method whose class does not exist yet (a function of a class body)
    is not registered: [validator] returns the Validator, stored with no
    owner, to be registered by [__set_name__]; giving it an [owner] raises
    TypeError. *)
Theorem class_body_validator_deferred (fi : @FuncInfo Obj Val TypeId) fld disc id
    (w : @World Obj Val TypeId) vo :
  fi_is_method fi = true -> fi_method_class fi = None ->
  construct (fi_check fi) fld disc = Built vo ->
  validator_callable fad goot fi fld disc None id w
    = (ReturnsValidator id, {| store := <[id := vo]> (store w); _validators := _validators w |}) /\
  owner vo = None /\ registered vo = false /\
  (forall o, fst (validator_callable fad goot fi fld disc (Some o) id w)
             = DecError (TypeError "Validator owner cannot be set for class validator")).
Proof.
  intros Hm Hcls Hc. destruct (construct_built _ _ _ _ Hc) as (_ & _ & _ & Ho & Hr & _).
  unfold validator_callable. rewrite Hc, Hm, Hcls.
  split_and!; [reflexivity|exact Ho|exact Hr|reflexivity].
Qed.

(** A plain function given without [owner] whose first parameter has no
    usable annotation (unannotated, no parameter, or no signature) makes
    [validator] raise ValueError, and nothing is registered. *)
Theorem untyped_validator_rejected (fi : @FuncInfo Obj Val TypeId) fld disc id
    (w : @World Obj Val TypeId) vo :
  fi_is_method fi = false -> infer_owner goot fi = None ->
  construct (fi_check fi) fld disc = Built vo ->
  validator_callable fad goot fi fld disc None id w
    = (DecError (ValueError "Validator first parameter must be typed"),
       {| store := <[id := vo]> (store w); _validators := _validators w |}).
Proof.
  intros Hm Hi Hc. unfold validator_callable. rewrite Hc, Hm, Hi. reflexivity.
Qed.

(** [validator] on a fresh identity keeps the registry well formed. *)
Theorem validator_preserves_wf (fi : @FuncInfo Obj Val TypeId) fld disc own id
    (w : @World Obj Val TypeId) :
  registry_wf w -> store w !! id = None ->
  registry_wf (snd (validator_callable fad goot fi fld disc own id w)).
Proof.
  intros Hwf Hs. unfold validator_callable.
  destruct (construct (fi_check fi) fld disc) as [vo|msg] eqn:Hc; [|exact Hwf].
  destruct (construct_built _ _ _ _ Hc) as (_ & _ & _ & _ & Hr & _).
  pose proof (register_alloc_wf w id vo Hwf Hs Hr) as Hw0.
  destruct (fi_is_method fi), (fi_method_class fi) as [cls|], own as [o|],
    (infer_owner goot fi) as [io|]; cbv beta iota zeta;
    first [ exact Hw0
          | rewrite snd_register_and_return; apply register_wf_aux; exact Hw0 ].
Qed.

(** With a string [discard] and no field, a successfully decorated
    function is stored with [discard == [s]]: a ValidationError of the
    function becomes a Discard of exactly {s}, carrying the error. *)
Theorem string_discard_single_field (arg fld : option FieldOrName) s own
    (fi : @FuncInfo Obj Val TypeId) id (w : @World Obj Val TypeId) f w' :
  validator_configured fad goot arg fld (Some (DiscardStr s)) own fi id w = (ReturnsFunc f, w') ->
  field_or fld arg = None ->
  exists vo, store w' !! id = Some vo /\ discard vo = Some [FieldName s] /\
    forall fo obj kw err, call_func (func vo) obj kw = Raise (ExnVE err) ->
      fst (wrapped_call fo vo obj kw) = Raise (ExnDiscard {[s]} err).
Proof.
  unfold validator_configured. intros H Hfld.
  destruct (validator_callable_func _ _ _ _ _ _ _ _ H) as (vo & o & Hc & _ & _ & ->).
  destruct (construct_built _ _ _ _ Hc) as (_ & Hf & Hd & _ & Hr & _ & Hdc).
  rewrite Hfld in Hf, Hd. simpl in Hd.
  rewrite (register_fresh_eq fad id o _ vo) by (simpl; rewrite ?lookup_insert_eq; auto).
  eexists. simpl. rewrite lookup_insert_eq. split_and!; [reflexivity|exact Hd|].
  intros fo obj kw err Hcall. simpl in Hcall.
  unfold wrapped_call. simpl. rewrite Hf, Hcall, Hd. simpl. rewrite Hdc. simpl.
  do 2 f_equal. set_solver.
Qed.

(** [__set_name__] on a Validator not yet registered registers it under
    the class and replaces the class attribute by the bare function; on
    one already registered it raises RuntimeError, the class attributes
    and the lists of validators being left unchanged. *)
Theorem set_name_registers_once id (own : TypeId) name (w : @World Obj Val TypeId)
    (attrs : gmap string (@Attr Obj Val)) vo :
  store w !! id = Some vo ->
  let r := __set_name__ fad id own name w attrs in
  if registered vo then
    fst (fst r) = Some (RuntimeError "Validator already registered") /\
    snd r = attrs /\ _validators (snd (fst r)) = _validators w
  else
    fst (fst r) = None /\ snd r = <[name := AttrFunc (func vo)]> attrs /\
    _validators (snd (fst r)) own = (_validators w own ++ [id])%list.
Proof.
  intros Hs r. subst r. unfold __set_name__.
  destruct (registered vo) eqn:Hr.
  - unfold _register. rewrite Hs, Hr. simpl. split_and!; reflexivity.
  - rewrite (register_fresh_eq fad id own w vo Hs Hr). simpl.
    rewrite lookup_insert_eq. simpl. split_and!; try reflexivity.
    unfold registry_append. rewrite decide_True by reflexivity. reflexivity.
Qed.
End DecoratorExtra.

Import ConstructExamples DecoratorExamples MoreExamples.

Lemma validator_registers_function_witness :
  validator_callable no_dependencies (fun t => t) typed_x None None None 0 empty_world
    = (ReturnsFunc check_x,
       snd (validator_callable no_dependencies (fun t => t) typed_x None None None 0
              empty_world)) /\
  exists vo,
    store (snd (validator_callable no_dependencies (fun t => t) typed_x None None None 0
                  empty_world)) !! 0 = Some vo /\
    owner vo = Some "Foo" /\ registered vo = true /\
    _validators (snd (validator_callable no_dependencies (fun t => t) typed_x None None
                        None 0 empty_world)) "Foo" = [0].
Proof.
  assert (H : validator_callable no_dependencies (fun t => t) typed_x None None None 0
                empty_world
              = (ReturnsFunc check_x,
                 snd (validator_callable no_dependencies (fun t => t) typed_x None None
                        None 0 empty_world)))
    by reflexivity.
  split; [exact H |].
  destruct (validator_registers_function no_dependencies (fun t => t) typed_x None None
              None 0 empty_world _ _ H)
    as (_ & o & vo & Ho & Hs & Hown & Hr & _ & Hl & _).
  vm_compute in Ho. injection Ho as <-.
  exists vo. split_and!; [exact Hs | exact Hown | exact Hr |]. rewrite Hl. reflexivity.
Defined.

Lemma validator_failure_keeps_lists_witness :
  validator_callable no_dependencies (fun t => t) untyped_x None None None 1 foo_world1
    = (DecError (ValueError "Validator first parameter must be typed"),
       snd (validator_callable no_dependencies (fun t => t) untyped_x None None None 1
              foo_world1)) /\
  _validators (snd (validator_callable no_dependencies (fun t => t) untyped_x None None
                      None 1 foo_world1)) = _validators foo_world1.
Proof.
  assert (H : validator_callable no_dependencies (fun t => t) untyped_x None None None 1
                foo_world1
              = (DecError (ValueError "Validator first parameter must be typed"),
                 snd (validator_callable no_dependencies (fun t => t) untyped_x None None
                        None 1 foo_world1)))
    by reflexivity.
  split; [exact H |].
  exact (validator_failure_keeps_lists no_dependencies (fun t => t) untyped_x None None
           None 1 foo_world1 _ _ H (fun f Hf => ltac:(discriminate Hf))).
Defined.

Lemma class_body_validator_deferred_witness :
  fi_is_method class_body_x = true /\ fi_method_class class_body_x = None /\
  construct (fi_check class_body_x) None None = Built x_plain /\
  validator_callable no_dependencies (fun t => t) class_body_x None None None 0 empty_world
    = (ReturnsValidator 0, {| store := {[0 := x_plain]}; _validators := fun _ => [] |}) /\
  fst (validator_callable no_dependencies (fun t => t) class_body_x None None (Some "Foo")
         0 empty_world)
    = DecError (TypeError "Validator owner cannot be set for class validator").
Proof.
  assert (Hm : fi_is_method class_body_x = true) by reflexivity.
  assert (Hcls : fi_method_class class_body_x = None) by reflexivity.
  assert (Hc : construct (fi_check class_body_x) None None = Built x_plain)
    by (vm_compute; reflexivity).
  destruct (class_body_validator_deferred no_dependencies (fun t => t) class_body_x None
              None 0 empty_world x_plain Hm Hcls Hc) as (Hv & _ & _ & Ho).
  split_and!; [exact Hm | exact Hcls | exact Hc | exact Hv | exact (Ho "Foo")].
Defined.

Lemma untyped_validator_rejected_witness :
  fi_is_method untyped_x = false /\ infer_owner (fun t => t) untyped_x = None /\
  construct (fi_check untyped_x) None None = Built x_plain /\
  validator_callable no_dependencies (fun t => t) untyped_x None None None 0 empty_world
    = (DecError (ValueError "Validator first parameter must be typed"),
       {| store := {[0 := x_plain]}; _validators := fun _ => [] |}).
Proof.
  assert (Hm : fi_is_method untyped_x = false) by reflexivity.
  assert (Hi : infer_owner (fun t => t) untyped_x = None) by (vm_compute; reflexivity).
  assert (Hc : construct (fi_check untyped_x) None None = Built x_plain)
    by (vm_compute; reflexivity).
  split_and!; [exact Hm | exact Hi | exact Hc |].
  exact (untyped_validator_rejected no_dependencies (fun t => t) untyped_x None None 0
           empty_world x_plain Hm Hi Hc).
Defined.

Lemma validator_preserves_wf_witness :
  registry_wf empty_world /\ store empty_world !! 1 = None /\
  registry_wf (snd (validator_callable no_dependencies (fun t => t) method_of_foo
                      (Some (FieldName "x")) None None 1 empty_world)).
Proof.
  assert (Hwf : registry_wf empty_world).
  { split_and!.
    - intros t j Hj. apply elem_of_nil in Hj. contradiction.
    - intros t. constructor.
    - intros t1 t2 j Hj. apply elem_of_nil in Hj. contradiction. }
  assert (Hs : store empty_world !! 1 = None) by reflexivity.
  split_and!; [exact Hwf | exact Hs |].
  exact (validator_preserves_wf no_dependencies (fun t => t) method_of_foo
           (Some (FieldName "x")) None None 1 empty_world Hwf Hs).
Defined.

Lemma string_discard_single_field_witness :
  validator_configured no_dependencies (fun t => t) None None (Some (DiscardStr "x")) None
    typed_x 0 empty_world
    = (ReturnsFunc check_x,
       snd (validator_configured no_dependencies (fun t => t) None None
              (Some (DiscardStr "x")) None typed_x 0 empty_world)) /\
  field_or None None = None /\
  exists vo,
    store (snd (validator_configured no_dependencies (fun t => t) None None
                  (Some (DiscardStr "x")) None typed_x 0 empty_world)) !! 0 = Some vo /\
    fst (wrapped_call foo_fields vo tt ∅) = Raise (ExnDiscard {["x"]} (mkVE ["bad"] [])).
Proof.
  assert (H : validator_configured no_dependencies (fun t => t) None None
                (Some (DiscardStr "x")) None typed_x 0 empty_world
              = (ReturnsFunc check_x,
                 snd (validator_configured no_dependencies (fun t => t) None None
                        (Some (DiscardStr "x")) None typed_x 0 empty_world)))
    by reflexivity.
  assert (Hf : field_or None None = None) by reflexivity.
  split_and!; [exact H | exact Hf |].
  destruct (string_discard_single_field no_dependencies (fun t => t) None None "x" None
              typed_x 0 empty_world _ _ H Hf) as (vo & Hs & Hd & Hw).
  exists vo. split; [exact Hs |]. apply Hw.
  assert (Hfn : func vo = check_x).
  { vm_compute in Hs. injection Hs as <-. reflexivity. }
  rewrite Hfn. reflexivity.
Defined.

Lemma set_name_registers_once_witness :
  store foo_world0 !! 0 = Some x_fresh /\
  snd (__set_name__ no_dependencies 0 "Foo" "check_x" foo_world0
         {["check_x" := AttrValidator 0]})
    = <["check_x" := AttrFunc check_x]> {["check_x" := AttrValidator 0]}.
Proof.
  assert (Hs : store foo_world0 !! 0 = Some x_fresh) by (vm_compute; reflexivity).
  assert (Hr : registered x_fresh = false) by (vm_compute; reflexivity).
  pose proof (set_name_registers_once no_dependencies 0 "Foo" "check_x" foo_world0
                {["check_x" := AttrValidator 0]} x_fresh Hs) as H.
  cbv zeta in H. rewrite Hr in H. destruct H as (_ & Ha & _).
  split; [exact Hs |]. rewrite Ha. reflexivity.
Defined.
End DecoratorExtra.
